(** * Marketplace app: tab shell, tab icons and listing screen

    A shallow embedding of three React Native source files:

    - [src/components/TabIcon.tsx]      (module [TabIconTsx])
    - [src/screens/MainTabsScreen.tsx]  (module [MainTabsScreenTsx])
    - the marketplace listing screen    (module [MarketplaceScreenTsx])

    Conventions.  The numbers of a product (prices, rating, viewer count)
    are IEEE 754 doubles, and the discount formula is computed on them with
    the primitive binary64 operations, rounding included.  The constants of
    layout and animation (sizes, stroke widths, scales, insets), on which
    the files perform no arithmetic but [Math.max], are rationals ([Q]).
    Array indices and page positions are [nat]; a string is a sequence of
    code units.  A React component is a function from its
    props and state to a view; an event handler is a function from the state
    of the render that created it to the next state and the commands it
    issued (animations started, pager calls, service calls, log lines). *)

From Stdlib Require Import QArith ZArith List String Bool Arith Lia.
From Stdlib Require Import Floats Uint63.
Import ListNotations.

Open Scope string_scope.

(** ** JavaScript primitives used by the three files *)

Module Js.

Definition number := Q.

(** A number held by a product: an IEEE 754 binary64 value. *)
Definition double := float.

(** NaN is the only double that differs from itself. *)
Definition isNaN (x : double) : bool := negb (PrimFloat.eqb x x).

(** Truthiness of an optional number: [undefined], [null], [0], [-0] and
    [NaN] are falsy, every other number is truthy. *)
Definition truthy (x : option double) : bool :=
  match x with
  | None => false
  | Some d => negb (PrimFloat.eqb d 0%float || isNaN d)
  end.

(** [Math.round]: the integer nearest to [x], ties towards plus infinity;
    [-0] for [-0.5 <= x < 0]; NaN, the infinities and the zeros are
    returned as they are.  A finite double is [m * 2^e] with a sign: with
    [e >= 0] it is an integer already, otherwise [floor (x + 1/2)] is
    computed exactly on the integers, and that integer (below [2^53] in
    magnitude) converts to a double without rounding. *)
Definition Math_round (x : double) : double :=
  match Prim2SF x with
  | S754_finite s m e =>
      if (0 <=? e)%Z then x
      else
        let k := (- e)%Z in
        let n := ((cond_Zopp s (Zpos m) * 2 + 2 ^ k) / 2 ^ (k + 1))%Z in
        if (n =? 0)%Z then (if s then neg_zero else zero)
        else if (n <? 0)%Z
             then PrimFloat.opp (PrimFloat.of_uint63 (Uint63.of_Z (- n)))
             else PrimFloat.of_uint63 (Uint63.of_Z n)
  | _ => x
  end.

(** [Math.max] on two numbers. *)
Definition Math_max (x y : number) : number :=
  if Qle_bool x y then y else x.

(** [arr.slice(0, n)]. *)
Definition slice0 {A} (n : nat) (arr : list A) : list A := firstn n arr.

(** [x > y] on doubles. *)
Definition gt (x y : double) : bool := PrimFloat.ltb y x.

(** Two readings of the bit-level form of a double: strictly positive
    (finite or infinite), and zero or NaN. *)
Definition SFpositive (x : spec_float) : bool :=
  match x with
  | S754_finite false _ _ => true
  | S754_infinity false => true
  | _ => false
  end.

Definition SFnull (x : spec_float) : bool :=
  match x with
  | S754_zero _ => true
  | S754_nan => true
  | _ => false
  end.

End Js.

(** ** src/components/TabIcon.tsx *)

Module TabIconTsx.

(** The props object a caller hands to [TabIcon].  The interface
    [TabIconProps] declares [name], [active], [size] and [color]; [badge]
    is the extra attribute that [MainTabsScreen] puts on the element.  The
    declared type of [name] is a union of five literals, erased at run
    time, so [name] is a string here. *)
Record TabIconProps := {
  name   : string;
  active : option bool;
  size   : option Js.number;
  color  : option string;
  badge  : option Z
}.

(** The drawing primitives of react-native-svg that the file uses. *)
Inductive Shape :=
| Path (d : string) (fill : option string) (stroke : string)
       (strokeWidth : Js.number) (strokeLinecap : string)
       (strokeLinejoin : option string) (transform : option string)
| Circle (cx cy r : string) (fill : option string) (stroke : string)
         (strokeWidth : Js.number) (strokeLinecap strokeLinejoin : string).

Record Svg := {
  svgWidth : Js.number;
  svgHeight : Js.number;
  viewBox : string;
  svgFill : string;
  shapes : list Shape
}.

(** What [TabIcon] returns: a [View] of the given width and height whose
    only child is the result of [renderIcon()] ([None] is JSX [null]). *)
Record TabIconView := {
  width : Js.number;
  height : Js.number;
  child : option Svg
}.

Definition strokeWidth : Js.number := 2.5%Q.
Definition cornerRadius : Js.number := 4%Q.

Definition mkSvg (size : Js.number) (l : list Shape) : Svg :=
  {| svgWidth := size; svgHeight := size; viewBox := "0 0 24 24";
     svgFill := "none"; shapes := l |}.

Definition fillOf (active : bool) (color : string) : option string :=
  Some (if active then color else "none").

(** The [switch (name)] of [renderIcon], with the destructured props as
    arguments. *)
Definition renderIcon (name : string) (active : bool) (size : Js.number)
    (color : string) : option Svg :=
  if String.eqb name "home" then
    Some (mkSvg size
      [ Path "M9.5 21V14.5C9.5 13.9477 9.94772 13.5 10.5 13.5H13.5C14.0523 13.5 14.5 13.9477 14.5 14.5V21M3 9.5L12 3L21 9.5V19.5C21 20.6046 20.1046 21.5 19 21.5H5C3.89543 21.5 3 20.6046 3 19.5V9.5Z"
          (fillOf active color) color
          (if active then 0%Q else strokeWidth) "round" (Some "round") None ])
  else if String.eqb name "shop" then
    Some (mkSvg size
      [ Path "M6 6C6 3.79086 7.79086 2 10 2H14C16.2091 2 18 3.79086 18 6V7H20C21.1046 7 22 7.89543 22 9V20C22 21.1046 21.1046 22 20 22H4C2.89543 22 2 21.1046 2 20V9C2 7.89543 2.89543 7 4 7H6V6Z"
          (fillOf active color) color strokeWidth "round" (Some "round") None;
        Path "M6 7V6C6 3.79086 7.79086 2 10 2H14C16.2091 2 18 3.79086 18 6V7"
          None color strokeWidth "round" (Some "round") None ])
  else if String.eqb name "freelance" then
    Some (mkSvg size
      [ Path "M3 8C3 6.34315 4.34315 5 6 5H18C19.6569 5 21 6.34315 21 8V18C21 19.6569 19.6569 21 18 21H6C4.34315 21 3 19.6569 3 18V8Z"
          (fillOf active color) color strokeWidth "round" (Some "round") None;
        Path "M8 5V4C8 2.89543 8.89543 2 10 2H14C15.1046 2 16 2.89543 16 4V5"
          None color strokeWidth "round" (Some "round") None;
        Path "M3 10H21"
          None color strokeWidth "round" (Some "round") None ])
  else if String.eqb name "dashboard" then
    Some (mkSvg size
      [ Path "M21.7071 2.29289C22.4381 3.02389 22.2556 4.23949 21.3146 4.72684L4.98959 12.8893C3.96733 13.4204 2.8034 12.4721 3.08233 11.3411L4.96719 3.94803C5.11032 3.39171 5.39171 2.89032 5.94803 2.74719L13.3411 0.862326C14.4721 0.583397 15.4204 1.74733 14.8893 2.76959L6.72684 19.0946C6.23949 20.0356 5.02389 20.2181 4.29289 19.4871L2.29289 17.4871C1.90237 17.0966 1.90237 16.4634 2.29289 16.0729L16.0729 2.29289C16.4634 1.90237 17.0966 1.90237 17.4871 2.29289L21.7071 2.29289Z"
          (fillOf active color) color strokeWidth "round" (Some "round")
          (Some "rotate(-45 12 12)");
        Path "M10.5 13.5L21 3"
          None color strokeWidth "round" (Some "round") None ])
  else if String.eqb name "profile" then
    Some (mkSvg size
      [ Circle "12" "12" "9"
          (fillOf active color) color strokeWidth "round" "round";
        Path "M12 12C13.6569 12 15 10.6569 15 9C15 7.34315 13.6569 6 12 6C10.3431 6 9 7.34315 9 9C9 10.6569 10.3431 12 12 12Z"
          (fillOf active color) color strokeWidth "round" (Some "round") None;
        Path "M6.16797 18.8409C6.70043 16.6229 8.76497 15 11.25 15H12.75C15.235 15 17.2996 16.6229 17.832 18.8409"
          None color strokeWidth "round" (Some "round") None ])
  else None.

Definition withDefault {A} (dflt : A) (x : option A) : A :=
  match x with Some a => a | None => dflt end.

(** The component: destructure [name], [active = false], [size = 24],
    [color = "#FFFFFF"], and wrap [renderIcon()] in a sized [View]. *)
Definition TabIcon (props : TabIconProps) : TabIconView :=
  let name := name props in
  let active := withDefault false (active props) in
  let size := withDefault 24%Q (size props) in
  let color := withDefault "#FFFFFF" (color props) in
  {| width := size; height := size;
     child := renderIcon name active size color |}.

(** The icon names the [switch] has a case for. *)
Definition knownNames : list string :=
  ["home"; "shop"; "freelance"; "dashboard"; "profile"].

(** *** Reading a drawing *)

(** The part of a shape that does not depend on the colours: the path data
    with its transform, or the centre and radius of a circle. *)
Inductive Geometry :=
| PathGeometry (d : string) (transform : option string)
| CircleGeometry (cx cy r : string).

Definition geometry (sh : Shape) : Geometry :=
  match sh with
  | Path d _ _ _ _ _ transform => PathGeometry d transform
  | Circle cx cy r _ _ _ _ _ => CircleGeometry cx cy r
  end.

Definition strokeOf (sh : Shape) : string :=
  match sh with
  | Path _ _ stroke _ _ _ _ => stroke
  | Circle _ _ _ _ stroke _ _ _ => stroke
  end.

Definition fillAttr (sh : Shape) : option string :=
  match sh with
  | Path _ fill _ _ _ _ _ => fill
  | Circle _ _ _ fill _ _ _ _ => fill
  end.

Definition strokeWidthOf (sh : Shape) : Js.number :=
  match sh with
  | Path _ _ _ w _ _ _ => w
  | Circle _ _ _ _ _ w _ _ => w
  end.

End TabIconTsx.

(** ** The product entity of the data service *)

Module ProductService.

(** Modelled from the spec: the type [ProductWithImage] is declared in
    [services/supabase/productService], which is not among the sources.
    The spec lists its fields: identifier, name, brand, price, optional
    original price, optional rating, optional image reference, viewer
    count. *)
Record ProductWithImage := {
  id : string;
  name : string;
  brand : string;
  price : Js.double;
  original_price : option Js.double;
  rating : option Js.double;
  image_url : option string;
  viewers_count : Js.double
}.

End ProductService.

(** ** src/screens/MainTabsScreen.tsx *)

Module MainTabsScreenTsx.

Import ProductService.

Module COLORS.
Definition background := "#0D0D0D".
Definition navBackground := "#0A0A0A".
Definition accent := "#D4A84B".
Definition iconInactive := "#4A4A4A".
Definition iconActive := "#FFFFFF".
Definition divider := "rgba(255, 255, 255, 0.06)".
End COLORS.

Record Tab := { key : string; label : string; iconName : string }.

Definition TABS : list Tab :=
  [ {| key := "home"; label := "Home"; iconName := "home" |};
    {| key := "shop"; label := "Shop"; iconName := "shop" |};
    {| key := "freelance"; label := "Freelance"; iconName := "freelance" |};
    {| key := "dashboard"; label := "Dashboard"; iconName := "dashboard" |};
    {| key := "profile"; label := "Profile"; iconName := "profile" |} ].

(** The children of the [PagerView], by key, in order. *)
Definition PAGES : list string :=
  ["home"; "shop"; "cart"; "dashboard"; "profile"].

(** *** What the hooks hand to a render *)

Record User := { userId : string; role : string }.

Record RealtimeOrdersOptions := { sellerId : string; enabled : bool }.

(** [useSafeAreaInsets], [useAuth] and [useRealtimeOrders] are imported
    from outside the three files; a render receives their results. *)
Record Hooks := {
  insets_bottom : Js.number;
  user : option User;
  useRealtimeOrders : RealtimeOrdersOptions -> Z  (* its [pendingCount] *)
}.

(** [user?.id || ''] *)
Definition sellerIdOf (u : option User) : string :=
  match u with Some u => userId u | None => "" end.

(** [!!user?.id && user?.role === 'seller'] *)
Definition enabledOf (u : option User) : bool :=
  match u with
  | Some u => negb (String.eqb (userId u) "") && String.eqb (role u) "seller"
  | None => false
  end.

Definition pendingCount (h : Hooks) : Z :=
  useRealtimeOrders h
    {| sellerId := sellerIdOf (user h); enabled := enabledOf (user h) |}.

(** *** State, animated values and commands *)

(** The two [useState] cells. *)
Record State := {
  currentPage : nat;
  selectedProduct : option ProductWithImage
}.

Definition initialState : State :=
  {| currentPage := 0; selectedProduct := None |}.

(** [scaleAnims]: one [Animated.Value(1)] per tab; a value is named by
    its position in the array. *)
Definition AnimatedValue := nat.

Definition scaleAnims : list AnimatedValue := seq 0 (List.length TABS).

(** The animations the file builds.  Every one of them is created with
    [useNativeDriver: true]. *)
#[warnings="-register-all"]
Inductive Animation :=
| timing (value : AnimatedValue) (toValue : Js.number) (duration : Z)
| spring (value : AnimatedValue) (toValue : Js.number) (friction tension : Z)
| sequence (steps : list Animation).

(** What a handler asks of the animation engine and of the pager. *)
Inductive Cmd :=
| start (a : Animation)          (* [a.start()] *)
| setPage (page : nat).          (* [pagerRef.current.setPage(page)] *)

Definition enlarged : Js.number := 1.15%Q.
Definition normal : Js.number := 1%Q.
Definition shrunk : Js.number := 0.85%Q.

(** [arr.forEach((x, i) => f x i)], collecting what the callback did. *)
Fixpoint forEach {A B} (f : A -> nat -> list B) (i : nat) (arr : list A)
  : list B :=
  match arr with
  | [] => []
  | x :: rest => f x i ++ forEach f (S i) rest
  end.

(** [arr.map((x, i) => f x i)]. *)
Fixpoint mapi {A B} (f : A -> nat -> B) (i : nat) (arr : list A) : list B :=
  match arr with
  | [] => []
  | x :: rest => f x i :: mapi f (S i) rest
  end.

(** [pagerRef.current]: React attaches the ref while the [PagerView] is
    mounted, which is whenever no product is selected (see [render]). *)
Definition pagerRef_current (s : State) : bool :=
  match selectedProduct s with None => true | Some _ => false end.

(** [pagerRef.current?.setPage(page)] *)
Definition pager_setPage (s : State) (page : nat) : list Cmd :=
  if pagerRef_current s then [setPage page] else [].

(** *** Handlers

    A handler closes over the state of the render that created it and
    returns the state after its [setState] calls with the commands it
    issued, in order. *)

Definition handlePageSelected (s : State) (position : nat)
  : State * list Cmd :=
  ( {| currentPage := position; selectedProduct := selectedProduct s |},
    forEach (fun anim i =>
               [start (spring anim
                         (if Nat.eqb i position then enlarged else normal)
                         6 120)])
            0 scaleAnims ).

Definition handleTabPress (s : State) (index : nat) : State * list Cmd :=
  ( s,
    start (sequence
             [ timing index shrunk 100;
               spring index
                 (if Nat.eqb (currentPage s) index then enlarged else normal)
                 6 120 ])
    :: pager_setPage s index ).

Definition handleNavigateToCart (s : State) : State * list Cmd :=
  (s, pager_setPage s 2).

Definition handleProductPress (s : State) (product : ProductWithImage)
  : State * list Cmd :=
  ( {| currentPage := currentPage s; selectedProduct := Some product |}, [] ).

Definition handleBackFromProduct (s : State) : State * list Cmd :=
  ( {| currentPage := currentPage s; selectedProduct := None |}, [] ).

(** *** Render *)

Record TabButton := {
  buttonKey : string;
  onPress : nat;                   (* [() => handleTabPress(onPress)] *)
  scale : option AnimatedValue;    (* [scaleAnims[index]] *)
  icon : TabIconTsx.TabIconView
}.

Inductive View :=
| ProductDetailScreen (product : ProductWithImage)
| MainTabs (pages : list string) (paddingBottom : Js.number)
           (tabBar : list TabButton).

Definition tabButton (h : Hooks) (s : State) (tab : Tab) (index : nat)
  : TabButton :=
  {| buttonKey := key tab;
     onPress := index;
     scale := nth_error scaleAnims index;
     icon := TabIconTsx.TabIcon
       {| TabIconTsx.name := iconName tab;
          TabIconTsx.active := Some (Nat.eqb (currentPage s) index);
          TabIconTsx.size := Some 22%Q;
          TabIconTsx.color :=
            Some (if Nat.eqb (currentPage s) index
                  then COLORS.iconActive else COLORS.iconInactive);
          TabIconTsx.badge :=
            if String.eqb (key tab) "dashboard"
            then Some (pendingCount h) else None |} |}.

Definition render (h : Hooks) (s : State) : View :=
  match selectedProduct s with
  | Some product => ProductDetailScreen product
  | None =>
      MainTabs PAGES (Js.Math_max (insets_bottom h) 8%Q)
               (mapi (tabButton h s) 0 TABS)
  end.

(** *** Events

    The events the rendered tree can deliver to the handlers: the pager's
    [onPageSelected], a press on a tab button, the listing page's two
    callbacks and the detail screen's [onBack]. *)
Inductive Event :=
| PageSelected (position : nat)
| TabPress (index : nat)
| NavigateToCart
| ProductPress (product : ProductWithImage)
| BackFromProduct.

(** An event can occur only if the element that raises it is on screen. *)
Definition deliverable (v : View) (e : Event) : bool :=
  match v, e with
  | MainTabs _ _ bar, TabPress index =>
      existsb (fun b => Nat.eqb (onPress b) index) bar
  | MainTabs _ _ _, (PageSelected _ | NavigateToCart | ProductPress _) => true
  | ProductDetailScreen _, BackFromProduct => true
  | _, _ => false
  end.

Definition dispatch (s : State) (e : Event) : State * list Cmd :=
  match e with
  | PageSelected position => handlePageSelected s position
  | TabPress index => handleTabPress s index
  | NavigateToCart => handleNavigateToCart s
  | ProductPress product => handleProductPress s product
  | BackFromProduct => handleBackFromProduct s
  end.

Definition step (h : Hooks) (s : State) (e : Event)
  : option (State * list Cmd) :=
  if deliverable (render h s) e then Some (dispatch s e) else None.

(** *** Reading the commands *)

(** The (value, toValue) pairs an animation drives, in playing order. *)
Fixpoint drives (a : Animation) : list (AnimatedValue * Js.number) :=
  match a with
  | timing v t _ => [(v, t)]
  | spring v t _ _ => [(v, t)]
  | sequence steps => flat_map drives steps
  end.

Definition drivesOf (c : Cmd) : list (AnimatedValue * Js.number) :=
  match c with start a => drives a | setPage _ => [] end.

(** The successive targets the commands give to animated value [v]. *)
Definition targetsOn (v : AnimatedValue) (cmds : list Cmd)
  : list Js.number :=
  map snd (filter (fun p => Nat.eqb (fst p) v) (flat_map drivesOf cmds)).

(** The value [v] is finally animated to, if the commands touch it. *)
Definition animTarget (v : AnimatedValue) (cmds : list Cmd)
  : option Js.number :=
  last (map Some (targetsOn v cmds)) None.

(** The pages the pager was told to jump to. *)
Definition jumps (cmds : list Cmd) : list nat :=
  flat_map (fun c => match c with setPage p => [p] | start _ => [] end) cmds.

(** The pager answers [setPage(p)] by settling on [p] and raising
    [onPageSelected] with that position. *)
Definition settle (s : State) (p : nat) : State * list Cmd :=
  handlePageSelected s p.

(** *** Runs of events *)

(** Deliver a list of events one after the other, collecting the commands;
    [None] as soon as an event cannot be delivered. *)
Fixpoint steps (h : Hooks) (s : State) (events : list Event)
  : option (State * list Cmd) :=
  match events with
  | [] => Some (s, [])
  | e :: rest =>
      match step h s e with
      | None => None
      | Some (s1, cmds1) =>
          match steps h s1 rest with
          | None => None
          | Some (s2, cmds2) => Some (s2, (cmds1 ++ cmds2)%list)
          end
      end
  end.

(** The bottom padding of the rendered tab bar, when it is on screen. *)
Definition paddingBottomOf (v : View) : option Js.number :=
  match v with
  | MainTabs _ padding _ => Some padding
  | ProductDetailScreen _ => None
  end.

(** The animations a list of commands starts. *)
Definition started (cmds : list Cmd) : list Animation :=
  flat_map (fun c => match c with start a => [a] | setPage _ => [] end) cmds.

End MainTabsScreenTsx.

(** ** The marketplace listing screen *)

Module MarketplaceScreenTsx.

Import ProductService.

(** *** ProductCard *)

Record ProductCardProps := {
  product : ProductWithImage;
  compact : bool;
  horizontal : bool
}.

(** [const discount = product.original_price
      ? Math.round(((product.original_price - product.price)
                     / product.original_price) * 100)
      : 0] *)
Definition discount (product : ProductWithImage) : Js.double :=
  match original_price product with
  | Some original =>
      if Js.truthy (Some original)
      then Js.Math_round (((original - price product) / original) * 100)%float
      else 0%float
  | None => 0%float
  end.

(** What JSX [{cond && <El/>}] leaves in the tree: nothing when [cond] is
    [false], [null] or [undefined], the number itself when [cond] is the
    falsy number [0], the element otherwise. *)
Inductive Slot (A : Type) :=
| Nothing
| Raw (n : Js.double)
| Elem (a : A).
Arguments Nothing {A}.
Arguments Raw {A} n.
Arguments Elem {A} a.

Inductive ImageView :=
| Image (uri : string)
| Placeholder (initial : string).

Record CardView := {
  cardStyle : string;
  discountBadge : Slot Js.double;     (* text [-{discount}%] *)
  image : ImageView;
  ratingRow : Slot (Js.double * Js.double);
  brandText : string;
  productName : string;
  productPrice : Js.double;           (* shown with [toLocaleString], [DA] *)
  originalPrice : Slot Js.double
}.

Definition getCardStyle (props : ProductCardProps) : string :=
  if compact props then "productCardCompact"
  else if horizontal props then "productCardHorizontal"
  else "productCard".

Definition ProductCard (props : ProductCardProps) : CardView :=
  let product := product props in
  let discount := discount product in
  {| cardStyle := getCardStyle props;
     discountBadge := if Js.gt discount 0%float then Elem discount else Nothing;
     image :=
       match image_url product with
       | Some uri => if String.eqb uri "" then Placeholder (substring 0 1 (name product))
                     else Image uri
       | None => Placeholder (substring 0 1 (name product))
       end;
     ratingRow :=
       match rating product with
       | Some r => if Js.truthy (Some r)
                   then Elem (r, viewers_count product) else Raw r
       | None => Nothing
       end;
     brandText := brand product;
     productName := name product;
     productPrice := price product;
     originalPrice :=
       match original_price product with
       | Some original =>
           if Js.truthy (Some original)
           then if Js.gt original (price product)
                then Elem original else Nothing
           else Raw original
       | None => Nothing
       end |}.

(** *** Screen state *)

Record State := {
  isLoading : bool;
  refreshing : bool;
  newProducts : list ProductWithImage;
  saleProducts : list ProductWithImage;
  categories : list string
}.

Definition initialState : State :=
  {| isLoading := true; refreshing := false;
     newProducts := []; saleProducts := []; categories := [] |}.

(** *** The data service, as seen during one run of a procedure *)

Inductive Outcome (A : Type) :=
| Resolved (a : A)
| Rejected (error : string).
Arguments Resolved {A} a.
Arguments Rejected {A} error.

(** How the service settles each promise it hands out.  The catalogue
    request can be issued twice in one run; its answer may differ between
    the first ([0]) and the second ([1]) call. *)
Record Backend := {
  fetchNewProducts : nat -> Outcome (list ProductWithImage);
  fetchFournisseurProducts : nat -> Outcome (list ProductWithImage);
  fetchProductCategories : Outcome (list string);
  fetchAllProducts : nat -> Outcome (list ProductWithImage);
  invalidateProductCaches : Outcome unit
}.

Inductive Request :=
| FetchNewProducts (limit : nat)
| FetchFournisseurProducts (limit : nat)
| FetchProductCategories
| FetchAllProducts
| InvalidateProductCaches.

Inductive Settlement :=
| Fulfilled
| Failed (error : string).

Inductive Update :=
| SetIsLoading (b : bool)
| SetRefreshing (b : bool)
| SetNewProducts (l : list ProductWithImage)
| SetSaleProducts (l : list ProductWithImage)
| SetCategories (l : list string).

(** What a run does, in order: requests sent to the service (with the
    way each one settles), state setters called, lines written with
    [console.error]. *)
Inductive Action :=
| Call (r : Request) (settled : Settlement)
| Set_ (u : Update)
| ConsoleError (message : string) (error : string).

Definition update (u : Update) (s : State) : State :=
  match u with
  | SetIsLoading b =>
      {| isLoading := b; refreshing := refreshing s;
         newProducts := newProducts s; saleProducts := saleProducts s;
         categories := categories s |}
  | SetRefreshing b =>
      {| isLoading := isLoading s; refreshing := b;
         newProducts := newProducts s; saleProducts := saleProducts s;
         categories := categories s |}
  | SetNewProducts l =>
      {| isLoading := isLoading s; refreshing := refreshing s;
         newProducts := l; saleProducts := saleProducts s;
         categories := categories s |}
  | SetSaleProducts l =>
      {| isLoading := isLoading s; refreshing := refreshing s;
         newProducts := newProducts s; saleProducts := l;
         categories := categories s |}
  | SetCategories l =>
      {| isLoading := isLoading s; refreshing := refreshing s;
         newProducts := newProducts s; saleProducts := saleProducts s;
         categories := l |}
  end.

(** *** The async monad: state, trace and rejection *)

Record World := { state : State; trace : list Action }.

Definition Async (A : Type) : Type := World -> World * Outcome A.

Definition ret {A} (a : A) : Async A := fun w => (w, Resolved a).

Definition throw {A} (error : string) : Async A :=
  fun w => (w, Rejected error).

Definition bind {A B} (m : Async A) (k : A -> Async B) : Async B :=
  fun w =>
    match m w with
    | (w', Resolved a) => k a w'
    | (w', Rejected e) => (w', Rejected e)
    end.

Declare Scope async_scope.
Delimit Scope async_scope with async.
Notation "x <- m ;; k" := (bind m (fun x => k))
  (at level 61, m at next level, right associativity) : async_scope.
Notation "m ;; k" := (bind m (fun _ => k))
  (at level 61, right associativity) : async_scope.
Open Scope async_scope.

Definition emit (a : Action) : Async unit :=
  fun w => ({| state := state w; trace := trace w ++ [a] |}, Resolved tt).

Definition setState (u : Update) : Async unit :=
  fun w => ({| state := update u (state w); trace := trace w ++ [Set_ u] |},
            Resolved tt).

Definition settlement {A} (o : Outcome A) : Settlement :=
  match o with Resolved _ => Fulfilled | Rejected e => Failed e end.

(** Calling a service function sends the request and yields a promise;
    nothing is thrown until the promise is awaited. *)
Definition request {A} (r : Request) (answer : Outcome A)
  : Async (Outcome A) :=
  emit (Call r (settlement answer)) ;; ret answer.

Definition await {A} (promise : Outcome A) : Async A :=
  fun w => (w, promise).

(** [try { body } catch (error) { handler } finally { cleanup }] *)
Definition tryCatchFinally (body : Async unit)
    (handler : string -> Async unit) (cleanup : Async unit) : Async unit :=
  fun w =>
    match body w with
    | (w', Resolved _) => cleanup w'
    | (w', Rejected error) =>
        match handler error w' with
        | (w'', Resolved _) => cleanup w''
        | (w'', Rejected e) =>
            match cleanup w'' with
            | (w3, Resolved _) => (w3, Rejected e)
            | (w3, Rejected e') => (w3, Rejected e')
            end
        end
    end.

(** [Promise.all([p1, p2, p3])]: fulfilled with the three values when all
    three are fulfilled, rejected as soon as one is.  Which rejection wins
    when several promises reject is a matter of timing; the one earliest
    in the array is taken here. *)
Definition Promise_all {A B C} (p1 : Outcome A) (p2 : Outcome B)
    (p3 : Outcome C) : Outcome (A * B * C) :=
  match p1, p2, p3 with
  | Resolved a, Resolved b, Resolved c => Resolved (a, b, c)
  | Rejected e, _, _ => Rejected e
  | _, Rejected e, _ => Rejected e
  | _, _, Rejected e => Rejected e
  end.

(** How many catalogue requests the run has sent so far. *)
Definition catalogueCalls (tr : list Action) : nat :=
  List.length
    (filter (fun a => match a with
                      | Call FetchAllProducts _ => true
                      | _ => false
                      end) tr).

(** [await fetchAllProducts()] *)
Definition awaitAllProducts (b : Backend) : Async (list ProductWithImage) :=
  fun w =>
    (p <- request FetchAllProducts
            (fetchAllProducts b (catalogueCalls (trace w))) ;;
     await p) w.

(** *** loadData and onRefresh *)

Definition loadData (b : Backend) : Async unit :=
  tryCatchFinally
    ( p1 <- request (FetchNewProducts 10) (fetchNewProducts b 10) ;;
      p2 <- request (FetchFournisseurProducts 20)
              (fetchFournisseurProducts b 20) ;;
      p3 <- request FetchProductCategories (fetchProductCategories b) ;;
      r <- await (Promise_all p1 p2 p3) ;;
      let '(newProds, fournisseurProds, cats) := r in
      (if Nat.eqb (List.length newProds) 0 then
         allProducts <- awaitAllProducts b ;;
         setState (SetNewProducts (Js.slice0 10 allProducts))
       else
         setState (SetNewProducts newProds)) ;;
      (if Nat.eqb (List.length fournisseurProds) 0 then
         allProducts <- awaitAllProducts b ;;
         setState (SetSaleProducts (Js.slice0 10 allProducts))
       else
         setState (SetSaleProducts fournisseurProds)) ;;
      setState (SetCategories cats) )
    (fun error => emit (ConsoleError "Error loading marketplace data:" error))
    (setState (SetIsLoading false)).

Definition onRefresh (b : Backend) : Async unit :=
  setState (SetRefreshing true) ;;
  (p <- request InvalidateProductCaches (invalidateProductCaches b) ;;
   await p) ;;
  loadData b ;;
  setState (SetRefreshing false).

(** What starts a load cycle: the mount effect, a notification of the
    product subscription, or the refresh control. *)
Inductive Trigger :=
| InitialLoad
| RealtimeNotification
| PullToRefresh.

Definition cycle (t : Trigger) (b : Backend) : Async unit :=
  match t with
  | InitialLoad => loadData b
  | RealtimeNotification => loadData b
  | PullToRefresh => onRefresh b
  end.

(** Run a procedure from screen state [s], with a fresh trace. *)
Definition run {A} (m : Async A) (s : State) : World * Outcome A :=
  m {| state := s; trace := [] |}.

Definition stateAfter {A} (m : Async A) (s : State) : State :=
  state (fst (run m s)).

Definition traceOf {A} (m : Async A) (s : State) : list Action :=
  trace (fst (run m s)).

Definition outcomeOf {A} (m : Async A) (s : State) : Outcome A :=
  snd (run m s).

(** *** Render *)

Inductive SectionView :=
| Spinner
| Cards (cards : list CardView)
| EmptyState (text : string).

Record ScreenView := {
  refreshControl : bool;                    (* [refreshing] *)
  categoryChips : option (list string);
  newSection : SectionView;
  saleSection : SectionView
}.

Definition section (loading : bool) (horizontalCards : bool)
    (items : list ProductWithImage) : SectionView :=
  if loading then Spinner
  else if Nat.ltb 0 (List.length items) then
    Cards (map (fun p => ProductCard {| product := p; compact := false;
                                        horizontal := horizontalCards |})
               items)
  else EmptyState "No products available".

Definition render (s : State) : ScreenView :=
  {| refreshControl := refreshing s;
     categoryChips :=
       if Nat.ltb 0 (List.length (categories s))
       then Some (categories s) else None;
     newSection := section (isLoading s) true (newProducts s);
     saleSection := section (isLoading s) false (saleProducts s) |}.

(** *** Reading a trace *)

(** The screen state after each action of a trace, starting from [s]. *)
Fixpoint statesAlong (s : State) (tr : list Action) : list State :=
  match tr with
  | [] => []
  | Set_ u :: rest => update u s :: statesAlong (update u s) rest
  | _ :: rest => s :: statesAlong s rest
  end.

Definition isFetch (r : Request) : bool :=
  match r with InvalidateProductCaches => false | _ => true end.

(** The fetch requests of a trace that were rejected. *)
Definition rejectedFetches (tr : list Action) : list Request :=
  flat_map (fun a => match a with
                     | Call r (Failed _) => if isFetch r then [r] else []
                     | _ => []
                     end) tr.

(** The requests of a trace, in the order they were sent. *)
Definition requests (tr : list Action) : list Request :=
  flat_map (fun a => match a with Call r _ => [r] | _ => [] end) tr.

Definition errorLines (tr : list Action) : list (string * string) :=
  flat_map (fun a => match a with
                     | ConsoleError m e => [(m, e)]
                     | _ => []
                     end) tr.

(** *** Press handlers of a card and callbacks of the screen *)

(** [handlePress]: [if (onPress) { onPress(product) }]; the result is the
    call made, if any. *)
Definition handlePress {A} (onPress : option (ProductWithImage -> A))
    (product : ProductWithImage) : option A :=
  match onPress with
  | Some callback => Some (callback product)
  | None => None
  end.

(** The two optional callbacks of [MarketplaceScreenProps]. *)
Record MarketplaceScreenProps (A : Type) := {
  onNavigateToCart : option A;
  onProductPress : option (ProductWithImage -> A)
}.
Arguments onNavigateToCart {A} _.
Arguments onProductPress {A} _.

(** A press on a card of either section: the screen hands its own
    [onProductPress] to every [ProductCard]. *)
Definition cardPress {A} (props : MarketplaceScreenProps A)
    (product : ProductWithImage) : option A :=
  handlePress (onProductPress props) product.

(** A press on the cart icon of the header: [onPress={onNavigateToCart}]. *)
Definition cartIconPress {A} (props : MarketplaceScreenProps A) : option A :=
  onNavigateToCart props.

(** The products of a section that is showing cards. *)
Definition cardNames (v : SectionView) : list string :=
  match v with
  | Cards cards => map productName cards
  | _ => []
  end.

End MarketplaceScreenTsx.

(** ** The listing screen as the first page of the tab shell *)

Module HomePage.

(** [<MarketplaceScreen onNavigateToCart={handleNavigateToCart}
                        onProductPress={handleProductPress} />]: a callback
    called by the page is an event of the shell. *)
Definition props : MarketplaceScreenTsx.MarketplaceScreenProps
                     MainTabsScreenTsx.Event :=
  {| MarketplaceScreenTsx.onNavigateToCart :=
       Some MainTabsScreenTsx.NavigateToCart;
     MarketplaceScreenTsx.onProductPress :=
       Some MainTabsScreenTsx.ProductPress |}.

End HomePage.

(** * Properties *)

Open Scope nat_scope.

(** ** The icon renderer *)

Section TabIconFacts.

Import TabIconTsx.

Lemma renderIcon_known name active size color :
  In name knownNames -> renderIcon name active size color <> None.
Proof.
  unfold knownNames; simpl.
  intros [<- | [<- | [<- | [<- | [<- | []]]]]]; discriminate.
Qed.

(** C9.  For an icon name outside home, shop, freelance, dashboard and
    profile, [renderIcon] returns [null] (whatever the other props are),
    so [TabIcon] returns its sized wrapper with no drawing in it; both are
    total functions, nothing is thrown. *)
Theorem renderIcon_unknown_name (props : TabIconProps) :
  ~ In (name props) knownNames ->
  (forall active size color,
      renderIcon (name props) active size color = None)
  /\ child (TabIcon props) = None.
Proof.
  intros Hout.
  assert (Hnone : forall active size color,
             renderIcon (name props) active size color = None).
  { intros active size color. unfold renderIcon.
    repeat match goal with
           | |- context [String.eqb ?x ?y] =>
               destruct (String.eqb_spec x y) as [Heq | _];
               [ exfalso; apply Hout; rewrite Heq; unfold knownNames;
                 simpl; tauto | ]
           end.
    reflexivity. }
  split; [exact Hnone | unfold TabIcon; simpl; apply Hnone].
Qed.

Lemma renderIcon_unknown_name_witness :
  ~ In "cart" knownNames
  /\ (forall active size color, renderIcon "cart" active size color = None)
  /\ child (TabIcon {| name := "cart"; active := None; size := None;
                       color := None; badge := None |}) = None.
Proof.
  assert (Hout : ~ In "cart" knownNames).
  { unfold knownNames; simpl.
    intros [H | [H | [H | [H | [H | []]]]]]; discriminate H. }
  split; [exact Hout | ].
  exact (renderIcon_unknown_name
           {| name := "cart"; active := None; size := None;
              color := None; badge := None |} Hout).
Defined.

(** The component never reads [badge]. *)
Lemma TabIcon_badge_irrelevant n a sz c b b' :
  TabIcon {| name := n; active := a; size := sz; color := c; badge := b |}
  = TabIcon {| name := n; active := a; size := sz; color := c; badge := b' |}.
Proof. reflexivity. Qed.

End TabIconFacts.

(** ** The tab shell *)

Section MainTabsFacts.

Import ProductService MainTabsScreenTsx.

(** C1.  The count that [useRealtimeOrders] returns reaches [TabIcon] as
    the [badge] attribute of the dashboard tab, and stops there: the tree
    that [MainTabsScreen] renders is the same whatever the count is, so
    no badge is drawn on the dashboard icon. *)
Theorem pendingCount_not_rendered
    (insets : Js.number) (u : option User)
    (orders orders' : RealtimeOrdersOptions -> Z) (s : State) :
  render {| insets_bottom := insets; user := u;
            useRealtimeOrders := orders |} s
  = render {| insets_bottom := insets; user := u;
              useRealtimeOrders := orders' |} s.
Proof.
  unfold render. destruct (selectedProduct s); [reflexivity | ].
  f_equal.
Qed.

(** The dashboard button of a signed-in seller with three pending orders:
    the props carry [badge = 3], the rendered icon is the bare glyph. *)
Example dashboard_tab_of_seller :
  let h := {| insets_bottom := 0%Q; user := Some {| userId := "u-42"; role := "seller" |};
              useRealtimeOrders := fun o => if enabled o then 3%Z else 0%Z |} in
  pendingCount h = 3%Z
  /\ option_map icon
       (match render h initialState with
        | MainTabs _ _ bar => nth_error bar 3
        | ProductDetailScreen _ => None
        end)
     = Some (TabIconTsx.TabIcon
               {| TabIconTsx.name := "dashboard";
                  TabIconTsx.active := Some false;
                  TabIconTsx.size := Some 22%Q;
                  TabIconTsx.color := Some COLORS.iconInactive;
                  TabIconTsx.badge := None |}).
Proof. split; reflexivity. Qed.

Lemma scaleAnims_eq : scaleAnims = [0; 1; 2; 3; 4].
Proof. reflexivity. Qed.

Lemma deliverable_main h s e :
  deliverable (render h s) e = true ->
  e <> BackFromProduct -> selectedProduct s = None.
Proof.
  unfold render. destruct (selectedProduct s); [ | reflexivity].
  destruct e; simpl; intros H Hne; try discriminate H.
  now elim Hne.
Qed.

Lemma deliverable_TabPress h s index :
  deliverable (render h s) (TabPress index) = true ->
  selectedProduct s = None /\ index < List.length TABS.
Proof.
  intros H. split.
  - apply (deliverable_main h s _ H). discriminate.
  - revert H. unfold render. destruct (selectedProduct s); [discriminate | ].
    simpl. do 5 (destruct index as [ | index]; [lia | ]).
    simpl. discriminate.
Qed.

(** C8.  After the pager reports that it settled on one of its pages [p],
    the current page is [p], every tab has a running spring, the one on
    tab [p] heading for 1.15 and the others for 1, so exactly one tab is
    enlarged. *)
Theorem handlePageSelected_one_enlarged (s : State) (p : nat) :
  p < List.length PAGES ->
  let s' := fst (handlePageSelected s p) in
  let cmds := snd (handlePageSelected s p) in
  currentPage s' = p
  /\ animTarget p cmds = Some enlarged
  /\ (forall i, i < List.length TABS -> i <> p ->
                animTarget i cmds = Some normal)
  /\ filter (fun i => match animTarget i cmds with
                      | Some t => Qeq_bool t enlarged
                      | None => false
                      end) scaleAnims = [p].
Proof.
  intros Hp. simpl in Hp.
  do 5 (destruct p as [ | p];
        [ repeat split;
          intros i Hi Hne; simpl in Hi;
          do 5 (destruct i as [ | i]; [first [now elim Hne | reflexivity] | ]);
          lia
        | ]).
  lia.
Qed.

Lemma handlePageSelected_one_enlarged_witness :
  3 < List.length PAGES
  /\ currentPage (fst (handlePageSelected initialState 3)) = 3
  /\ animTarget 3 (snd (handlePageSelected initialState 3)) = Some enlarged.
Proof.
  assert (H : 3 < List.length PAGES) by (simpl; lia).
  split; [exact H | ].
  destruct (handlePageSelected_one_enlarged initialState 3 H)
    as (Hcur & Hp & _ & _).
  split; [exact Hcur | exact Hp].
Defined.

(** C3, as stated, fails: on page 0, a press on tab 1 makes page 1 the
    current page once the pager has settled, yet the press animation
    rebounds to 1, not to 1.15. *)
Lemma press_rebound_counterexample :
  let s := {| currentPage := 0; selectedProduct := None |} in
  let s1 := fst (handleTabPress s 1) in
  let cmds := snd (handleTabPress s 1) in
  jumps cmds = [1]
  /\ currentPage (fst (settle s1 1)) = 1
  /\ targetsOn 1 cmds = [shrunk; normal]
  /\ targetsOn 1 cmds <> [shrunk; enlarged].
Proof.
  repeat split. discriminate.
Qed.

(** C3, amended.  A press on tab [i] starts one animation, a sequence on
    tab [i] alone: first to 0.85, then a spring to 1.15 if [i] is the
    current page at the time of the press, to 1 otherwise. *)
Theorem handleTabPress_feedback (s : State) (i : nat) :
  let cmds := snd (handleTabPress s i) in
  targetsOn i cmds
  = [shrunk; if Nat.eqb (currentPage s) i then enlarged else normal]
  /\ (forall j, j <> i -> targetsOn j cmds = [])
  /\ exists rebound,
       filter (fun c => match c with start _ => true | _ => false end) cmds
       = [start (sequence [timing i shrunk 100; rebound])].
Proof.
  unfold handleTabPress, pager_setPage, targetsOn; simpl.
  split; [ | split].
  - destruct (pagerRef_current s); simpl; rewrite Nat.eqb_refl; reflexivity.
  - intros j Hj. apply Nat.eqb_neq in Hj. rewrite Nat.eqb_sym in Hj.
    destruct (pagerRef_current s); simpl; rewrite Hj; reflexivity.
  - eexists. destruct (pagerRef_current s); reflexivity.
Qed.

(** A press leaves both state cells as they were. *)
Lemma handleTabPress_state s i : fst (handleTabPress s i) = s.
Proof. reflexivity. Qed.

Lemma dispatch_currentPage s e :
  currentPage (fst (dispatch s e)) <> currentPage s ->
  exists p, e = PageSelected p.
Proof.
  destruct e as [p | i | | product | ]; simpl; intros H;
    try (now elim H).
  now exists p.
Qed.

(** C4.  Whenever a tab button is pressed, the pager receives exactly one
    command, [setPage i]; the press does not change the state, so the
    current page is the one before the press.  No event other than the
    pager's page-selected event changes the current page. *)
Theorem TabPress_jumps_once (h : Hooks) (s s' : State) (i : nat)
    (cmds : list Cmd) :
  step h s (TabPress i) = Some (s', cmds) ->
  jumps cmds = [i]
  /\ s' = s
  /\ currentPage s' = currentPage s
  /\ (forall e s2 cmds2,
        step h s e = Some (s2, cmds2) ->
        currentPage s2 <> currentPage s ->
        exists p, e = PageSelected p).
Proof.
  unfold step at 1.
  destruct (deliverable (render h s) (TabPress i)) eqn:Hd; [ | discriminate].
  apply deliverable_TabPress in Hd. destruct Hd as [Hnone _].
  simpl. unfold handleTabPress. intros Heq. injection Heq as <- <-.
  repeat split.
  - unfold pager_setPage, pagerRef_current. rewrite Hnone. reflexivity.
  - intros e s2 cmds2. unfold step.
    destruct (deliverable (render h s) e); [ | discriminate].
    intros Hs Hne. injection Hs as Hs.
    apply (dispatch_currentPage s e).
    rewrite Hs. exact Hne.
Qed.

Lemma TabPress_jumps_once_witness :
  let h := {| insets_bottom := 0%Q; user := None;
              useRealtimeOrders := fun _ => 0%Z |} in
  step h initialState (TabPress 3)
  = Some (initialState,
          [ start (sequence [timing 3 shrunk 100; spring 3 normal 6 120]);
            setPage 3 ])
  /\ jumps [ start (sequence [timing 3 shrunk 100; spring 3 normal 6 120]);
             setPage 3 ] = [3].
Proof.
  intros h.
  assert (H : step h initialState (TabPress 3)
              = Some (initialState,
                      [ start (sequence [timing 3 shrunk 100;
                                         spring 3 normal 6 120]);
                        setPage 3 ])) by reflexivity.
  split; [exact H | ].
  exact (proj1 (TabPress_jumps_once h initialState initialState 3 _ H)).
Defined.

End MainTabsFacts.

(** ** Doubles, read on their bits *)

Section DoubleFacts.

(** The result of the rounding step of every operation carries the sign it
    was given. *)
Lemma binary_round_aux_sign sx mx ex lx :
  Js.SFpositive (binary_round_aux prec emax sx mx ex lx) = true -> sx = false.
Proof.
  unfold binary_round_aux.
  destruct (shr_fexp prec emax mx ex lx) as [mrs' e'].
  destruct (shr_fexp prec emax _ e' loc_Exact) as [mrs'' e''].
  destruct (shr_m mrs'') as [ | m | m]; [ | | discriminate].
  - destruct sx; [discriminate | reflexivity].
  - destruct (Z.leb e'' (emax - prec)); destruct sx;
      first [discriminate | reflexivity].
Qed.

Lemma binary_round_aux_opp_sign sx mx ex lx :
  Js.SFpositive (SFopp (binary_round_aux prec emax sx mx ex lx)) = true ->
  sx = true.
Proof.
  unfold binary_round_aux.
  destruct (shr_fexp prec emax mx ex lx) as [mrs' e'].
  destruct (shr_fexp prec emax _ e' loc_Exact) as [mrs'' e''].
  destruct (shr_m mrs'') as [ | m | m]; [ | | discriminate].
  - destruct sx; [reflexivity | discriminate].
  - destruct (Z.leb e'' (emax - prec)); destruct sx;
      first [discriminate | reflexivity].
Qed.

Lemma binary_normalize_sign m e :
  Js.SFpositive (binary_normalize prec emax m e false) = true -> (0 < m)%Z.
Proof.
  destruct m as [ | m | m]; simpl.
  - discriminate.
  - intros _. lia.
  - unfold binary_round.
    destruct (shl_align m e _) as [mz ez].
    intros H. apply binary_round_aux_sign in H. discriminate H.
Qed.

Lemma binary_normalize_opp_sign m e :
  Js.SFpositive (SFopp (binary_normalize prec emax m e false)) = true ->
  (m < 0)%Z.
Proof.
  destruct m as [ | m | m]; simpl.
  - discriminate.
  - unfold binary_round.
    destruct (shl_align m e _) as [mz ez].
    intros H. apply binary_round_aux_opp_sign in H. discriminate H.
  - intros _. lia.
Qed.

(** [0 < x] on doubles, read on the bits. *)
Lemma ltb_zero_positive (x : float) :
  PrimFloat.ltb 0 x = Js.SFpositive (Prim2SF x).
Proof.
  rewrite FloatAxioms.ltb_spec. change (Prim2SF 0) with (S754_zero false).
  destruct (Prim2SF x) as [s | s | | s m e]; try reflexivity;
    destruct s; reflexivity.
Qed.

Lemma SFpositive_mul x y :
  Js.SFpositive (SF64mul x y) = true -> Js.SFpositive y = true ->
  Js.SFpositive x = true.
Proof.
  unfold SF64mul, SFmul.
  destruct x as [sx | sx | | sx mx ex], y as [sy | sy | | sy my ey];
    try discriminate;
    destruct sy; try discriminate; destruct sx; try discriminate;
    try reflexivity.
  intros H _. apply binary_round_aux_sign in H. discriminate H.
Qed.

Lemma SFpositive_div x y :
  Js.SFpositive (SF64div x y) = true -> Js.SFpositive y = true ->
  Js.SFpositive x = true.
Proof.
  unfold SF64div, SFdiv.
  destruct x as [sx | sx | | sx mx ex], y as [sy | sy | | sy my ey];
    try discriminate;
    destruct sy; try discriminate; destruct sx; try discriminate;
    try reflexivity.
  destruct (SFdiv_core_binary prec emax (Zpos mx) ex (Zpos my) ey)
    as [[mz ez] lz].
  intros H _. apply binary_round_aux_sign in H. discriminate H.
Qed.

Lemma digits2_pos_bounds (m : positive) :
  (2 ^ (Zpos (digits2_pos m) - 1) <= Zpos m < 2 ^ Zpos (digits2_pos m))%Z.
Proof.
  induction m as [m IH | m IH | ]; simpl digits2_pos.
  - rewrite Pos2Z.inj_succ.
    replace (Z.succ (Zpos (digits2_pos m)) - 1)%Z
      with (Z.succ (Zpos (digits2_pos m) - 1))%Z by lia.
    rewrite !Z.pow_succ_r by lia. lia.
  - rewrite Pos2Z.inj_succ.
    replace (Z.succ (Zpos (digits2_pos m)) - 1)%Z
      with (Z.succ (Zpos (digits2_pos m) - 1))%Z by lia.
    rewrite !Z.pow_succ_r by lia. lia.
  - simpl. lia.
Qed.

Lemma shl_align_value (m : positive) (e e' : Z) :
  (e' <= e)%Z ->
  Zpos (fst (shl_align m e e')) = (Zpos m * 2 ^ (e - e'))%Z.
Proof.
  intros Hle. unfold shl_align.
  destruct (e' - e)%Z as [ | d | d] eqn:Hd.
  - replace (e - e')%Z with 0%Z by lia. simpl fst. lia.
  - lia.
  - simpl fst. replace (e - e')%Z with (Zpos d) by lia.
    clear Hd Hle. revert m.
    induction d as [ | d IH] using Pos.peano_ind; intros m.
    + simpl. lia.
    + rewrite Pos.iter_succ, Pos2Z.inj_succ, Z.pow_succ_r by lia.
      change (Zpos (Pos.iter xO m d)~0) with (2 * Zpos (Pos.iter xO m d))%Z.
      rewrite IH. lia.
Qed.

(** A double in canonical form: its exponent is at least the least one,
    its mantissa has at most 53 bits, and exactly 53 above the least
    exponent. *)
Lemma valid_finite_bounds (s : bool) (m : positive) (e : Z) :
  valid_binary (S754_finite s m e) = true ->
  (SpecFloat.emin prec emax <= e)%Z
  /\ (Zpos m < 2 ^ prec)%Z
  /\ ((SpecFloat.emin prec emax < e)%Z -> (2 ^ (prec - 1) <= Zpos m)%Z).
Proof.
  unfold valid_binary, bounded, canonical_mantissa, fexp.
  intros H. apply andb_true_iff in H. destruct H as [H _].
  apply Z.eqb_eq in H.
  destruct (digits2_pos_bounds m) as [Hlo Hhi].
  assert (Hd : (Zpos (digits2_pos m) <= prec)%Z) by lia.
  split; [lia | split].
  - apply Z.lt_le_trans with (1 := Hhi).
    apply Z.pow_le_mono_r; lia.
  - intros Hlt.
    assert (Heq : Zpos (digits2_pos m) = prec) by lia.
    rewrite <- Heq. exact Hlo.
Qed.

(** A positive double minus a double is positive only if the second is
    below the first. *)
Lemma SFpositive_sub x y :
  valid_binary x = true -> valid_binary y = true ->
  Js.SFpositive x = true ->
  Js.SFpositive (SF64sub x y) = true ->
  SFltb y x = true.
Proof.
  intros Vx Vy Px.
  destruct x as [sx | sx | | sx mx ex]; try discriminate Px;
    destruct sx; try discriminate Px.
  - destruct y as [sy | sy | | sy my ey]; try destruct sy;
      try discriminate; reflexivity.
  - destruct y as [sy | sy | | sy my ey]; try destruct sy;
      try discriminate; try reflexivity.
    unfold SF64sub, SFsub, cond_Zopp. intros H.
    apply binary_normalize_sign in H.
    rewrite !shl_align_value in H by lia.
    destruct (valid_finite_bounds _ _ _ Vx) as (Hex & Hmx & _).
    destruct (valid_finite_bounds _ _ _ Vy) as (Hey & _ & Hmy).
    unfold SFltb, SFcompare.
    destruct (Z.compare_spec ey ex) as [Heq | Hlt | Hgt]; [ | reflexivity | ].
    + subst ey. rewrite Z.min_id, Z.sub_diag, Z.pow_0_r, !Z.mul_1_r in H.
      replace (Pos.compare_cont Eq my mx) with (Pos.compare my mx)
        by reflexivity.
      assert (Hlt : (my < mx)%positive) by lia.
      apply Pos.compare_lt_iff in Hlt. rewrite Hlt. reflexivity.
    + exfalso.
      rewrite Z.min_l in H by lia.
      rewrite Z.sub_diag, Z.pow_0_r, Z.mul_1_r in H.
      pose proof (Hmy ltac:(lia)) as Hmy'.
      assert (Hp : (2 ^ 1 <= 2 ^ (ey - ex))%Z)
        by (apply Z.pow_le_mono_r; lia).
      assert (H2 : (2 ^ prec = 2 ^ (prec - 1) * 2 ^ 1)%Z) by reflexivity.
      nia.
Qed.

(** The difference of two equal doubles is a zero, or NaN for infinities. *)
Lemma SFnull_sub_eq x y : SFeqb x y = true -> Js.SFnull (SF64sub x y) = true.
Proof.
  unfold SFeqb, SFcompare, SF64sub, SFsub.
  destruct x as [sx | sx | | sx mx ex], y as [sy | sy | | sy my ey];
    try discriminate; try destruct sx; try destruct sy;
    try discriminate; try reflexivity;
    (destruct (Z.compare_spec ex ey) as [He | He | He]; try discriminate;
     destruct (Pos.compare_cont Eq mx my) eqn:Hm; try discriminate;
     intros _; apply Pos.compare_eq in Hm; subst;
     rewrite Z.sub_diag; reflexivity).
Qed.

Lemma SFnull_div x y : Js.SFnull x = true -> Js.SFnull (SF64div x y) = true.
Proof.
  destruct x as [sx | sx | | sx mx ex]; try discriminate;
    destruct y as [sy | sy | | sy my ey]; reflexivity.
Qed.

Lemma SFnull_mul x y : Js.SFnull x = true -> Js.SFnull (SF64mul x y) = true.
Proof.
  destruct x as [sx | sx | | sx mx ex]; try discriminate;
    destruct y as [sy | sy | | sy my ey]; reflexivity.
Qed.

Lemma SFnull_not_positive x :
  Js.SFnull x = true -> Js.SFpositive x = false.
Proof. destruct x as [s | s | | s m e]; try discriminate; reflexivity. Qed.

(** [Math.round] leaves zeros and NaN alone. *)
Lemma Math_round_null (x : float) :
  Js.SFnull (Prim2SF x) = true -> Js.Math_round x = x.
Proof.
  unfold Js.Math_round.
  destruct (Prim2SF x) as [s | s | | s m e]; try discriminate; reflexivity.
Qed.

(** [Math.round] gives a positive result on positive arguments only. *)
Lemma Math_round_positive (x : float) :
  PrimFloat.ltb 0 (Js.Math_round x) = true ->
  Js.SFpositive (Prim2SF x) = true.
Proof.
  unfold Js.Math_round.
  destruct (Prim2SF x) as [s | s | | s m e] eqn:Hx;
    try (rewrite ltb_zero_positive, Hx; intros H; exact H).
  destruct (0 <=? e)%Z eqn:He;
    [rewrite ltb_zero_positive, Hx; intros H; exact H | ].
  destruct s; [ | reflexivity].
  apply Z.leb_gt in He. unfold cond_Zopp.
  set (n := ((- Zpos m * 2 + 2 ^ (- e)) / 2 ^ (- e + 1))%Z).
  assert (Hn : (n <= 0)%Z).
  { assert (Hk : (0 < 2 ^ (- e))%Z) by (apply Z.pow_pos_nonneg; lia).
    assert (Hk1 : (2 ^ (- e + 1) = 2 * 2 ^ (- e))%Z)
      by (rewrite Z.pow_add_r by lia; lia).
    assert (n < 1)%Z; [ | lia].
    apply Z.div_lt_upper_bound; lia. }
  destruct (n =? 0)%Z eqn:H0; [intros H; discriminate H | ].
  apply Z.eqb_neq in H0.
  destruct (n <? 0)%Z eqn:Hneg; [ | apply Z.ltb_ge in Hneg; lia].
  rewrite ltb_zero_positive, FloatAxioms.opp_spec, FloatAxioms.of_uint63_spec.
  intros H. apply binary_normalize_opp_sign in H.
  pose proof (Uint63.to_Z_bounded (Uint63.of_Z (- n))). lia.
Qed.

(** A positive double is truthy. *)
Lemma truthy_positive (x : Js.double) :
  PrimFloat.ltb 0 x = true -> Js.truthy (Some x) = true.
Proof.
  rewrite ltb_zero_positive. intros H.
  unfold Js.truthy, Js.isNaN.
  rewrite !FloatAxioms.eqb_spec. change (Prim2SF 0) with (S754_zero false).
  destruct (Prim2SF x) as [s | s | | s m e]; try discriminate H;
    destruct s; try discriminate H; try reflexivity.
  unfold SFeqb, SFcompare.
  rewrite Z.compare_refl.
  replace (Pos.compare_cont Eq m m) with (Pos.compare m m) by reflexivity.
  rewrite Pos.compare_refl. reflexivity.
Qed.

End DoubleFacts.

(** ** The listing screen: product cards *)

Section ProductCardFacts.

Import ProductService MarketplaceScreenTsx.

Lemma discountBadge_eq (props : ProductCardProps) :
  discountBadge (ProductCard props)
  = if Js.gt (discount (product props)) 0%float
    then Elem (discount (product props)) else Nothing.
Proof. reflexivity. Qed.

Lemma discount_truthy (p : ProductWithImage) (op : Js.double) :
  original_price p = Some op -> Js.truthy (Some op) = true ->
  discount p = Js.Math_round (((op - price p) / op) * 100)%float.
Proof.
  intros Hop Ht. unfold discount. rewrite Hop, Ht. reflexivity.
Qed.

Lemma discount_falsy (p : ProductWithImage) :
  (forall op, original_price p = Some op -> Js.truthy (Some op) = false) ->
  discount p = 0%float.
Proof.
  intros H. unfold discount.
  destruct (original_price p) as [op | ]; [ | reflexivity].
  rewrite (H op eq_refl). reflexivity.
Qed.

(** A positive discount under a positive original price needs a price
    below the original price. *)
Lemma positive_discount_lower_price (p : ProductWithImage) (op : Js.double) :
  original_price p = Some op ->
  Js.gt op 0%float = true ->
  Js.gt (discount p) 0%float = true ->
  Js.gt op (price p) = true.
Proof.
  unfold Js.gt. intros Hop Hpos Hd.
  rewrite (discount_truthy p op Hop (truthy_positive op Hpos)) in Hd.
  apply Math_round_positive in Hd.
  rewrite FloatAxioms.mul_spec in Hd.
  pose proof (SFpositive_mul _ _ Hd eq_refl) as Hq.
  rewrite FloatAxioms.div_spec in Hq. rewrite ltb_zero_positive in Hpos.
  pose proof (SFpositive_div _ _ Hq Hpos) as Ha.
  rewrite FloatAxioms.sub_spec in Ha.
  rewrite FloatAxioms.ltb_spec.
  apply SFpositive_sub; auto using Prim2SF_valid.
Qed.

(** A price equal to the original price gives no positive discount. *)
Lemma equal_price_no_discount (p : ProductWithImage) (op : Js.double) :
  original_price p = Some op ->
  PrimFloat.eqb op (price p) = true ->
  Js.gt (discount p) 0%float = false.
Proof.
  intros Hop Heq. unfold Js.gt, discount. rewrite Hop.
  destruct (Js.truthy (Some op)); [ | reflexivity].
  rewrite FloatAxioms.eqb_spec in Heq.
  assert (Hnull : Js.SFnull (Prim2SF (((op - price p) / op) * 100)%float)
                  = true).
  { rewrite FloatAxioms.mul_spec, FloatAxioms.div_spec, FloatAxioms.sub_spec.
    apply SFnull_mul, SFnull_div, SFnull_sub_eq. exact Heq. }
  rewrite (Math_round_null _ Hnull), ltb_zero_positive.
  apply SFnull_not_positive. exact Hnull.
Qed.

(** C2, amended.  The discount badge of a card shows
    Math.round(((original_price - price) / original_price) * 100), computed
    on doubles, and is displayed exactly when the product has a truthy
    original price and that rounded percentage is greater than 0.  Under a
    positive original price a displayed badge implies that the original
    price is greater than the price (the converse fails when the percentage
    rounds to 0); without an original price, or when the original price
    equals the price, no badge is shown. *)
Theorem discountBadge_rule (props : ProductCardProps) :
  let p := product props in
  let badge := discountBadge (ProductCard props) in
  (forall d,
      badge = Elem d <->
      exists op, original_price p = Some op
                 /\ Js.truthy (Some op) = true
                 /\ d = Js.Math_round (((op - price p) / op) * 100)%float
                 /\ Js.gt d 0%float = true)
  /\ (forall d op, badge = Elem d -> original_price p = Some op ->
                   Js.gt op 0%float = true -> Js.gt op (price p) = true)
  /\ (forall n, badge <> Raw n)
  /\ (original_price p = None -> badge = Nothing)
  /\ (forall op, original_price p = Some op ->
                 PrimFloat.eqb op (price p) = true -> badge = Nothing).
Proof.
  intros p badge. subst badge. rewrite discountBadge_eq. fold p.
  split; [ | split; [ | split; [ | split]]].
  - intros d. split.
    + destruct (Js.gt (discount p) 0%float) eqn:Hgt; [ | discriminate].
      intros Hd. injection Hd as Hd.
      destruct (original_price p) as [op | ] eqn:Hop.
      * destruct (Js.truthy (Some op)) eqn:Ht.
        -- exists op. rewrite (discount_truthy p op Hop Ht) in Hd, Hgt.
           subst d. auto.
        -- rewrite discount_falsy in Hgt; [discriminate Hgt | ].
           intros op' Hop'. rewrite Hop in Hop'. injection Hop' as <-.
           exact Ht.
      * rewrite discount_falsy in Hgt; [discriminate Hgt | ].
        intros op' Hop'. rewrite Hop in Hop'. discriminate Hop'.
    + intros (op & Hop & Ht & Hd & Hgt).
      rewrite (discount_truthy p op Hop Ht), <- Hd, Hgt. reflexivity.
  - intros d op Hd Hop Hpos.
    destruct (Js.gt (discount p) 0%float) eqn:Hgt; [ | discriminate].
    exact (positive_discount_lower_price p op Hop Hpos Hgt).
  - intros n. destruct (Js.gt (discount p) 0%float); discriminate.
  - intros Hnone. rewrite discount_falsy; [reflexivity | ].
    intros op Hop. rewrite Hnone in Hop. discriminate Hop.
  - intros op Hop Heq.
    rewrite (equal_price_no_discount p op Hop Heq). reflexivity.
Qed.

Lemma discountBadge_rule_witness :
  let shoe := {| id := "p1"; name := "Shoe"; brand := "Acme";
                 price := 750%float; original_price := Some 1000%float;
                 rating := None; image_url := None;
                 viewers_count := 0%float |} in
  let props := {| product := shoe; compact := false; horizontal := true |} in
  discountBadge (ProductCard props) = Elem 25%float
  /\ Js.gt 1000%float (price shoe) = true.
Proof.
  intros shoe props.
  split; [reflexivity | ].
  exact (proj1 (proj2 (discountBadge_rule props))
               25%float 1000%float eq_refl eq_refl eq_refl).
Defined.

(** C2, as stated, fails: a product priced 999 with original price 1000
    has an original price strictly greater than its price, and its card
    has no discount badge (the percentage rounds to 0). *)
Lemma discountBadge_counterexample :
  let shoe := {| id := "p1"; name := "Shoe"; brand := "Acme";
                 price := 999%float; original_price := Some 1000%float;
                 rating := None; image_url := None;
                 viewers_count := 0%float |} in
  (exists op, original_price shoe = Some op
              /\ Js.gt op (price shoe) = true)
  /\ discount shoe = 0%float
  /\ discountBadge (ProductCard {| product := shoe; compact := false;
                                   horizontal := true |}) = Nothing.
Proof.
  intros shoe. split; [ | split; reflexivity].
  exists 1000%float. split; reflexivity.
Qed.

(** The two examples of the specification. *)
Example discount_1000_750 :
  discount {| id := "p1"; name := "Shoe"; brand := "Acme";
              price := 750%float; original_price := Some 1000%float;
              rating := None; image_url := None;
              viewers_count := 0%float |} = 25%float.
Proof. reflexivity. Qed.

Example no_badge_1000_1000 :
  discountBadge
    (ProductCard
       {| product := {| id := "p1"; name := "Shoe"; brand := "Acme";
                        price := 1000%float; original_price := Some 1000%float;
                        rating := None; image_url := None;
                        viewers_count := 0%float |};
          compact := false; horizontal := false |}) = Nothing.
Proof. reflexivity. Qed.

(** The rounding of doubles shows: (200 - 171) / 200 * 100 is
    14.499999999999998, so the badge of a product priced 171 with original
    price 200 reads 14, where exact arithmetic would give 14.5 and 15. *)
Example discount_200_171 :
  discount {| id := "p1"; name := "Shoe"; brand := "Acme";
              price := 171%float; original_price := Some 200%float;
              rating := None; image_url := None;
              viewers_count := 0%float |} = 14%float.
Proof. reflexivity. Qed.

End ProductCardFacts.

(** ** The listing screen: load cycles *)

Section LoadCycleFacts.

Import ProductService MarketplaceScreenTsx.

#[local] Arguments Js.slice0 : simpl never.

Ltac unfold_run :=
  cbv [traceOf stateAfter outcomeOf run cycle onRefresh loadData
       tryCatchFinally bind request await awaitAllProducts emit setState
       ret].

(** Replace every request by the answer the context records for it. *)
Ltac answers :=
  repeat (cbn;
          match goal with
          | H : fetchNewProducts _ _ = _ |- _ => rewrite H
          | H : fetchFournisseurProducts _ _ = _ |- _ => rewrite H
          | H : fetchProductCategories _ = _ |- _ => rewrite H
          | H : fetchAllProducts _ _ = _ |- _ => rewrite H
          | H : invalidateProductCaches _ = _ |- _ => rewrite H
          end);
  cbn.

(** Split on every way the service can answer one load. *)
Ltac every_answer b :=
  destruct (fetchNewProducts b 10) as [[ | ? ?] | ?] eqn:?;
  destruct (fetchFournisseurProducts b 20) as [[ | ? ?] | ?] eqn:?;
  destruct (fetchProductCategories b) as [? | ?] eqn:?;
  destruct (fetchAllProducts b 0) as [? | ?] eqn:?;
  destruct (fetchAllProducts b 1) as [? | ?] eqn:?.

(** [loadData] never rejects and always clears the loading flag. *)
Lemma loadData_settles b s :
  outcomeOf (loadData b) s = Resolved tt
  /\ isLoading (stateAfter (loadData b) s) = false.
Proof.
  every_answer b; unfold_run; answers; split; reflexivity.
Qed.

(** It always sends the three concurrent requests first, and never
    touches the refreshing flag. *)
Lemma loadData_requests b s :
  (exists more,
      requests (traceOf (loadData b) s)
      = FetchNewProducts 10 :: FetchFournisseurProducts 20
          :: FetchProductCategories :: more
      /\ ~ In InvalidateProductCaches more)
  /\ Forall (fun st => refreshing st = refreshing s)
            (statesAlong s (traceOf (loadData b) s)).
Proof.
  every_answer b; unfold_run; answers;
    (split;
     [ eexists; split; [reflexivity | ];
       simpl; intros H; repeat (destruct H as [H | H]; [discriminate H | ]);
       exact H
     | repeat constructor ]).
Qed.


Lemma section_of_nil horizontalCards :
  section false horizontalCards [] = EmptyState "No products available".
Proof. reflexivity. Qed.

(** [onRefresh] in terms of [loadData]: the flag is raised, the caches
    are invalidated, and only when that has succeeded does the load run,
    after which the flag is lowered. *)
Lemma onRefresh_run b s :
  run (onRefresh b) s
  = let busy := update (SetRefreshing true) s in
    match invalidateProductCaches b with
    | Rejected e =>
        ( {| state := busy;
             trace := [ Set_ (SetRefreshing true);
                        Call InvalidateProductCaches (Failed e) ] |},
          Rejected e )
    | Resolved _ =>
        ( {| state := update (SetRefreshing false)
                             (stateAfter (loadData b) busy);
             trace := Set_ (SetRefreshing true)
                        :: Call InvalidateProductCaches Fulfilled
                        :: traceOf (loadData b) busy
                        ++ [Set_ (SetRefreshing false)] |},
          Resolved tt )
    end.
Proof.
  destruct (invalidateProductCaches b) as [[] | ?] eqn:?;
    every_answer b; unfold_run; answers; reflexivity.
Qed.


Lemma requests_app tr1 tr2 :
  requests (tr1 ++ tr2) = (requests tr1 ++ requests tr2)%list.
Proof. apply flat_map_app. Qed.



(** A cycle is a run of [loadData], from the state in which it starts
    it, unless it is a refresh whose invalidation failed. *)
Lemma cycle_cases t b s :
  (exists e, t = PullToRefresh
             /\ invalidateProductCaches b = Rejected e
             /\ run (cycle t b) s
                = ( {| state := update (SetRefreshing true) s;
                       trace := [ Set_ (SetRefreshing true);
                                  Call InvalidateProductCaches (Failed e) ] |},
                    Rejected e ))
  \/ (exists s0 pre post,
         (forall a, In a (pre ++ post) ->
                    a = Set_ (SetRefreshing true)
                    \/ a = Call InvalidateProductCaches Fulfilled
                    \/ a = Set_ (SetRefreshing false))
         /\ newProducts s0 = newProducts s
         /\ saleProducts s0 = saleProducts s
         /\ categories s0 = categories s
         /\ traceOf (cycle t b) s = (pre ++ traceOf (loadData b) s0 ++ post)%list
         /\ outcomeOf (cycle t b) s = Resolved tt
         /\ isLoading (stateAfter (cycle t b) s) = false
         /\ newProducts (stateAfter (cycle t b) s)
            = newProducts (stateAfter (loadData b) s0)
         /\ saleProducts (stateAfter (cycle t b) s)
            = saleProducts (stateAfter (loadData b) s0)
         /\ categories (stateAfter (cycle t b) s)
            = categories (stateAfter (loadData b) s0)).
Proof.
  destruct (loadData_settles b s) as [Hout Hload].
  assert (Hplain : exists s0 pre post,
    (forall a, In a (pre ++ post) ->
               a = Set_ (SetRefreshing true)
               \/ a = Call InvalidateProductCaches Fulfilled
               \/ a = Set_ (SetRefreshing false))
    /\ newProducts s0 = newProducts s
    /\ saleProducts s0 = saleProducts s
    /\ categories s0 = categories s
    /\ traceOf (loadData b) s = (pre ++ traceOf (loadData b) s0 ++ post)%list
    /\ outcomeOf (loadData b) s = Resolved tt
    /\ isLoading (stateAfter (loadData b) s) = false
    /\ newProducts (stateAfter (loadData b) s)
       = newProducts (stateAfter (loadData b) s0)
    /\ saleProducts (stateAfter (loadData b) s)
       = saleProducts (stateAfter (loadData b) s0)
    /\ categories (stateAfter (loadData b) s)
       = categories (stateAfter (loadData b) s0)).
  { exists s, [], []. simpl. rewrite app_nil_r.
    repeat split; try assumption; contradiction. }
  destruct t; [right; exact Hplain | right; exact Hplain | ].
  unfold traceOf, outcomeOf, stateAfter. simpl cycle.
  rewrite onRefresh_run.
  destruct (invalidateProductCaches b) as [[] | e] eqn:Hinv.
  - right.
    exists (update (SetRefreshing true) s),
      [Set_ (SetRefreshing true); Call InvalidateProductCaches Fulfilled],
      [Set_ (SetRefreshing false)].
    simpl. repeat split.
    + intros a [<- | [<- | [<- | []]]]; auto.
    + apply (loadData_settles b).
  - left. exists e. repeat split.
Qed.

(** C5.  When the three concurrent requests resolve, the new-items one
    with an empty list, [loadData] sends the catalogue request next, and
    once that resolves the new section holds, and shows, exactly the first
    ten items of the catalogue. *)
Theorem catalogue_fallback b s four cats catalogue :
  fetchNewProducts b 10 = Resolved [] ->
  fetchFournisseurProducts b 20 = Resolved four ->
  fetchProductCategories b = Resolved cats ->
  fetchAllProducts b 0 = Resolved catalogue ->
  let s' := stateAfter (loadData b) s in
  (exists more,
      requests (traceOf (loadData b) s)
      = FetchNewProducts 10 :: FetchFournisseurProducts 20
          :: FetchProductCategories :: FetchAllProducts :: more)
  /\ newProducts s' = firstn 10 catalogue
  /\ isLoading s' = false
  /\ newSection (render s')
     = match catalogue with
       | [] => EmptyState "No products available"
       | _ :: _ =>
           Cards (map (fun p => ProductCard {| product := p;
                                               compact := false;
                                               horizontal := true |})
                      (firstn 10 catalogue))
       end.
Proof.
  intros Hnew Hfour Hcats Hall.
  destruct four as [ | x four];
    destruct (fetchAllProducts b 1) as [? | ?] eqn:?;
    unfold_run; answers; (split; [eexists; reflexivity | ]);
    repeat split; destruct catalogue; reflexivity.
Qed.

(** The scenario of the specification: no new items, a catalogue of 25. *)
Lemma catalogue_fallback_witness :
  let item n := {| id := String (Ascii.ascii_of_nat (65 + n)) "";
                   name := "Item"; brand := "Acme"; price := 100%float;
                   original_price := None; rating := None;
                   image_url := None; viewers_count := 0%float |} in
  let catalogue := map item (seq 0 25) in
  let b := {| fetchNewProducts := fun _ => Resolved [];
              fetchFournisseurProducts := fun _ => Resolved [item 7];
              fetchProductCategories := Resolved ["tools"];
              fetchAllProducts := fun _ => Resolved catalogue;
              invalidateProductCaches := Resolved tt |} in
  List.length catalogue = 25
  /\ newProducts (stateAfter (loadData b) initialState)
     = map item (seq 0 10)
  /\ isLoading (stateAfter (loadData b) initialState) = false.
Proof.
  intros item catalogue b.
  split; [reflexivity | ].
  destruct (catalogue_fallback b initialState [item 7] ["tools"] catalogue
              eq_refl eq_refl eq_refl eq_refl) as (_ & Hnew & Hload & _).
  split; [exact Hnew | exact Hload].
Defined.

(** C10.  When one of the three concurrent requests is rejected,
    [loadData] changes nothing but the loading flag; in every kind of
    load cycle the three collections stay as they were. *)
Theorem concurrent_rejection_keeps_collections b s :
  (exists e, fetchNewProducts b 10 = Rejected e)
  \/ (exists e, fetchFournisseurProducts b 20 = Rejected e)
  \/ (exists e, fetchProductCategories b = Rejected e) ->
  stateAfter (loadData b) s = update (SetIsLoading false) s
  /\ forall t,
      newProducts (stateAfter (cycle t b) s) = newProducts s
      /\ saleProducts (stateAfter (cycle t b) s) = saleProducts s
      /\ categories (stateAfter (cycle t b) s) = categories s.
Proof.
  intros Hrej.
  assert (Hload : forall s0,
             stateAfter (loadData b) s0 = update (SetIsLoading false) s0).
  { intros s0.
    every_answer b;
      try (exfalso;
           destruct Hrej as [[e He] | [[e He] | [e He]]]; discriminate He);
      unfold_run; answers; reflexivity. }
  split; [apply Hload | ].
  intros t.
  destruct (cycle_cases t b s)
    as [(e & _ & _ & Hrun)
       | (s0 & pre & post & _ & Hn & Hs & Hc & _ & _ & _ & Hn' & Hs' & Hc')].
  - unfold stateAfter. rewrite Hrun. repeat split.
  - rewrite Hn', Hs', Hc', Hload. simpl. auto.
Qed.

Lemma concurrent_rejection_keeps_collections_witness :
  let shoe := {| id := "p1"; name := "Shoe"; brand := "Acme";
                 price := 750%float; original_price := Some 1000%float;
                 rating := None; image_url := None;
                 viewers_count := 0%float |} in
  let b := {| fetchNewProducts := fun _ => Resolved [];
              fetchFournisseurProducts := fun _ => Resolved [shoe];
              fetchProductCategories := Rejected "offline";
              fetchAllProducts := fun _ => Resolved [shoe];
              invalidateProductCaches := Resolved tt |} in
  let s := {| isLoading := true; refreshing := false;
              newProducts := [shoe]; saleProducts := [];
              categories := ["shoes"] |} in
  stateAfter (loadData b) s
  = {| isLoading := false; refreshing := false;
       newProducts := [shoe]; saleProducts := [];
       categories := ["shoes"] |}.
Proof.
  intros shoe b s.
  exact (proj1 (concurrent_rejection_keeps_collections b s
                  (or_intror (or_intror (ex_intro _ "offline" eq_refl))))).
Defined.




(** C7.  A pull-to-refresh raises the refreshing flag, then sends the
    cache invalidation and waits for it: when it fails nothing else is
    sent; when it succeeds the rest of the run is the load procedure,
    whose three requests therefore all come after the invalidation,
    followed by the lowering of the flag.  The flag is up in every state
    of the run before its last action. *)
Theorem onRefresh_invalidates_first b s :
  let tr := traceOf (onRefresh b) s in
  let busy := update (SetRefreshing true) s in
  exists rest,
    tr = Set_ (SetRefreshing true)
           :: Call InvalidateProductCaches
                (settlement (invalidateProductCaches b))
           :: rest
    /\ match invalidateProductCaches b with
       | Rejected _ =>
           rest = [] /\ refreshing (stateAfter (onRefresh b) s) = true
       | Resolved _ =>
           rest = (traceOf (loadData b) busy
                   ++ [Set_ (SetRefreshing false)])%list
           /\ refreshing (stateAfter (onRefresh b) s) = false
           /\ exists more,
               requests rest
               = FetchNewProducts 10 :: FetchFournisseurProducts 20
                   :: FetchProductCategories :: more
               /\ ~ In InvalidateProductCaches more
       end
    /\ Forall (fun st => refreshing st = true)
              (statesAlong s (removelast tr)).
Proof.
  intros tr busy. subst tr. unfold traceOf, stateAfter.
  rewrite onRefresh_run. fold busy.
  destruct (loadData_requests b busy) as [(more & Hreq & Hnot) Hup].
  destruct (invalidateProductCaches b) as [[] | e]; cbn [fst snd state trace].
  - exists (traceOf (loadData b) busy ++ [Set_ (SetRefreshing false)])%list.
    split; [reflexivity | ]. split.
    + split; [reflexivity | ]. split; [reflexivity | ].
      exists more. rewrite requests_app, Hreq. simpl.
      rewrite app_nil_r. split; [reflexivity | exact Hnot].
    + assert (Hcut :
        removelast (Set_ (SetRefreshing true)
                      :: Call InvalidateProductCaches Fulfilled
                      :: traceOf (loadData b) busy
                      ++ [Set_ (SetRefreshing false)])
        = Set_ (SetRefreshing true)
            :: Call InvalidateProductCaches Fulfilled
            :: traceOf (loadData b) busy).
      { change (removelast ([Set_ (SetRefreshing true);
                             Call InvalidateProductCaches Fulfilled]
                            ++ (traceOf (loadData b) busy
                                ++ [Set_ (SetRefreshing false)]))
                = ([Set_ (SetRefreshing true);
                    Call InvalidateProductCaches Fulfilled]
                   ++ traceOf (loadData b) busy)%list).
        rewrite removelast_app;
          [now rewrite removelast_last | ].
        now destruct (traceOf (loadData b) busy). }
      rewrite Hcut. cbn [statesAlong]. fold busy.
      constructor; [reflexivity | ]. constructor; [reflexivity | ].
      exact Hup.
  - exists []. split; [reflexivity | ]. split; [split; reflexivity | ].
    simpl. constructor; [reflexivity | constructor].
Qed.

(** A refresh against a service with two new items and one supplier item. *)
Example onRefresh_trace :
  let item n := {| id := String (Ascii.ascii_of_nat (65 + n)) "";
                   name := "Item"; brand := "Acme"; price := 100%float;
                   original_price := None; rating := None;
                   image_url := None; viewers_count := 0%float |} in
  let b := {| fetchNewProducts := fun _ => Resolved [item 0; item 1];
              fetchFournisseurProducts := fun _ => Resolved [item 2];
              fetchProductCategories := Resolved ["tools"];
              fetchAllProducts := fun _ => Resolved [];
              invalidateProductCaches := Resolved tt |} in
  traceOf (onRefresh b) initialState
  = [ Set_ (SetRefreshing true);
      Call InvalidateProductCaches Fulfilled;
      Call (FetchNewProducts 10) Fulfilled;
      Call (FetchFournisseurProducts 20) Fulfilled;
      Call FetchProductCategories Fulfilled;
      Set_ (SetNewProducts [item 0; item 1]);
      Set_ (SetSaleProducts [item 2]);
      Set_ (SetCategories ["tools"]);
      Set_ (SetIsLoading false);
      Set_ (SetRefreshing false) ].
Proof. reflexivity. Qed.

End LoadCycleFacts.

(** ** More on the icon renderer *)

Section TabIconMore.

Import TabIconTsx.

Ltac by_name n :=
  unfold renderIcon;
  repeat match goal with
         | |- context [String.eqb n ?y] => destruct (String.eqb n y)
         | H : context [String.eqb n ?y] |- _ => destruct (String.eqb n y)
         end.

(** X1.  The geometry of an icon (its view box, path data, transforms,
    circle centres and radii) depends on the name alone: toggling [active]
    or changing the size or the colour never moves a point. *)
Theorem renderIcon_geometry_fixed (n : string) (a a' : bool)
    (sz sz' : Js.number) (c c' : string) :
  option_map (fun svg => (viewBox svg, map geometry (shapes svg)))
             (renderIcon n a sz c)
  = option_map (fun svg => (viewBox svg, map geometry (shapes svg)))
               (renderIcon n a' sz' c').
Proof. by_name n; reflexivity. Qed.

(** X2.  In every drawing, each shape is stroked with the given colour; a
    shape either has no fill attribute or is filled with the colour when the
    icon is active and with "none" when it is not, and the first shape
    always carries that fill.  Every shape has stroke width 2.5, except
    those of the active home icon, which have stroke width 0. *)
Theorem renderIcon_colours (n : string) (a : bool) (sz : Js.number)
    (c : string) (svg : Svg) :
  renderIcon n a sz c = Some svg ->
  Forall (fun sh =>
            strokeOf sh = c
            /\ (fillAttr sh = None
                \/ fillAttr sh = Some (if a then c else "none"))
            /\ strokeWidthOf sh
               = (if String.eqb n "home" && a then 0%Q else strokeWidth))
         (shapes svg)
  /\ option_map fillAttr (hd_error (shapes svg))
     = Some (Some (if a then c else "none")).
Proof.
  unfold renderIcon.
  destruct (String.eqb_spec n "home") as [-> | _].
  { intros H; injection H as <-. split; [ | reflexivity].
    simpl. constructor; [ | constructor].
    simpl. destruct a; repeat split; auto. }
  repeat match goal with
         | |- context [String.eqb n ?y] => destruct (String.eqb n y)
         end;
    intros H; try discriminate H; injection H as <-;
    (split; [ | reflexivity]);
    simpl; repeat (apply Forall_cons || apply Forall_nil);
    simpl; repeat split; auto.
Qed.

Lemma renderIcon_colours_witness :
  exists svg,
    renderIcon "home" true 22%Q "#FFFFFF" = Some svg
    /\ Forall (fun sh => strokeOf sh = "#FFFFFF"
                         /\ strokeWidthOf sh = 0%Q) (shapes svg).
Proof.
  eexists. split; [reflexivity | ].
  destruct (renderIcon_colours "home" true 22%Q "#FFFFFF" _ eq_refl)
    as [Hall _].
  apply (Forall_impl _ (fun sh H => conj (proj1 H) (proj2 (proj2 H))) Hall).
Defined.

(** X3.  For each of the five known names [TabIcon] returns a square
    wrapper of the requested size (24 when no size is given) holding a
    drawing of exactly that width and height on a 24 by 24 view box. *)
Theorem TabIcon_known_square (props : TabIconProps) :
  In (name props) knownNames ->
  exists svg,
    child (TabIcon props) = Some svg
    /\ width (TabIcon props) = withDefault 24%Q (size props)
    /\ height (TabIcon props) = width (TabIcon props)
    /\ svgWidth svg = width (TabIcon props)
    /\ svgHeight svg = height (TabIcon props)
    /\ viewBox svg = "0 0 24 24".
Proof.
  unfold knownNames, TabIcon; simpl.
  intros [<- | [<- | [<- | [<- | [<- | []]]]]];
    eexists; repeat split.
Qed.

Lemma TabIcon_known_square_witness :
  In "shop" knownNames
  /\ exists svg,
      child (TabIcon {| name := "shop"; active := None; size := None;
                        color := None; badge := None |}) = Some svg
      /\ svgWidth svg = 24%Q.
Proof.
  assert (Hin : In "shop" knownNames) by (simpl; tauto).
  split; [exact Hin | ].
  destruct (TabIcon_known_square
              {| name := "shop"; active := None; size := None;
                 color := None; badge := None |} Hin)
    as (svg & Hchild & Hw & _ & Hsw & _).
  exists svg. split; [exact Hchild | ].
  rewrite Hsw, Hw. reflexivity.
Defined.

End TabIconMore.

(** ** More on the tab shell *)

Section MainTabsMore.

Import ProductService MainTabsScreenTsx.

(** X4.  The orders subscription is enabled exactly for a signed-in user
    with a non-empty id whose role is seller; whenever it is enabled, the
    seller id handed to the hook is that non-empty id. *)
Theorem orders_enabled_only_for_seller (u : option User) :
  (enabledOf u = true <->
   exists usr, u = Some usr /\ userId usr <> "" /\ role usr = "seller")
  /\ (enabledOf u = true -> sellerIdOf u <> "")
  /\ (u = None -> enabledOf u = false /\ sellerIdOf u = "").
Proof.
  assert (Hiff : enabledOf u = true <->
                 exists usr, u = Some usr /\ userId usr <> ""
                             /\ role usr = "seller").
  { destruct u as [usr | ]; simpl.
    - rewrite andb_true_iff, negb_true_iff, String.eqb_neq, String.eqb_eq.
      split.
      + intros [Hid Hrole]. now exists usr.
      + intros (usr' & Heq & Hid & Hrole). injection Heq as <-. now split.
    - split; [discriminate | intros (usr & Heq & _); discriminate Heq]. }
  split; [exact Hiff | split].
  - intros H. apply Hiff in H. destruct H as (usr & -> & Hid & _). exact Hid.
  - intros ->. split; reflexivity.
Qed.

Lemma orders_enabled_only_for_seller_witness :
  enabledOf (Some {| userId := "u-42"; role := "seller" |}) = true
  /\ sellerIdOf (Some {| userId := "u-42"; role := "seller" |}) <> "".
Proof.
  split; [reflexivity | ].
  exact (proj1 (proj2 (orders_enabled_only_for_seller
                         (Some {| userId := "u-42"; role := "seller" |})))
               eq_refl).
Defined.

(** X5.  A press on tab button [i] can happen exactly when no product is
    selected and [i] is one of the five tab positions: the bar has one
    button per tab, wired to its own index. *)
Theorem TabPress_deliverable_iff (h : Hooks) (s : State) (i : nat) :
  deliverable (render h s) (TabPress i) = true
  <-> selectedProduct s = None /\ i < List.length TABS.
Proof.
  split; [apply deliverable_TabPress | ].
  intros [Hnone Hi]. unfold render. rewrite Hnone. simpl in Hi |- *.
  do 5 (destruct i as [ | i]; [reflexivity | ]). lia.
Qed.

(** X6.  While a product is selected the shell shows its detail screen,
    whatever the current page is, and the only event it accepts is the back
    action, which clears the selection, keeps the current page and issues
    no command. *)
Theorem detail_screen_blocks_navigation (h : Hooks) (s : State)
    (product : ProductWithImage) :
  selectedProduct s = Some product ->
  render h s = ProductDetailScreen product
  /\ (forall e, e <> BackFromProduct -> step h s e = None)
  /\ step h s BackFromProduct
     = Some ({| currentPage := currentPage s; selectedProduct := None |}, []).
Proof.
  intros Hsel.
  assert (Hr : render h s = ProductDetailScreen product).
  { unfold render. rewrite Hsel. reflexivity. }
  split; [exact Hr | split].
  - intros e He. unfold step. rewrite Hr.
    destruct e; try reflexivity. now elim He.
  - unfold step. rewrite Hr. reflexivity.
Qed.

Lemma detail_screen_blocks_navigation_witness :
  let shoe := {| id := "p1"; name := "Shoe"; brand := "Acme";
                 price := 750%float; original_price := Some 1000%float;
                 rating := None; image_url := None;
                 viewers_count := 0%float |} in
  let h := {| insets_bottom := 0%Q; user := None;
              useRealtimeOrders := fun _ => 0%Z |} in
  let s := {| currentPage := 3; selectedProduct := Some shoe |} in
  selectedProduct s = Some shoe
  /\ step h s (TabPress 1) = None
  /\ step h s BackFromProduct
     = Some ({| currentPage := 3; selectedProduct := None |}, []).
Proof.
  intros shoe h s.
  split; [reflexivity | ].
  destruct (detail_screen_blocks_navigation h s shoe eq_refl)
    as (_ & Hblock & Hback).
  split; [apply Hblock; discriminate | exact Hback].
Defined.

(** X7.  Selecting a product and going back is a round trip: from a state
    with no product selected the two events are accepted, issue no command
    and lead back to the very same state, so the shell shows the page it
    showed before (index 3 stays index 3). *)
Theorem select_then_back (h : Hooks) (s : State) (product : ProductWithImage) :
  selectedProduct s = None ->
  steps h s [ProductPress product; BackFromProduct] = Some (s, [])
  /\ (forall s1 cmds, step h s (ProductPress product) = Some (s1, cmds) ->
                      render h s1 = ProductDetailScreen product
                      /\ currentPage s1 = currentPage s).
Proof.
  intros Hnone. destruct s as [page sel]. simpl in Hnone. subst sel.
  split; [reflexivity | ].
  intros s1 cmds H. unfold step in H. simpl in H. injection H as <- _.
  split; reflexivity.
Qed.

Lemma select_then_back_witness :
  let shoe := {| id := "p1"; name := "Shoe"; brand := "Acme";
                 price := 750%float; original_price := Some 1000%float;
                 rating := None; image_url := None;
                 viewers_count := 0%float |} in
  let h := {| insets_bottom := 0%Q; user := None;
              useRealtimeOrders := fun _ => 0%Z |} in
  let s := {| currentPage := 3; selectedProduct := None |} in
  selectedProduct s = None
  /\ steps h s [ProductPress shoe; BackFromProduct] = Some (s, []).
Proof.
  intros shoe h s. split; [reflexivity | ].
  exact (proj1 (select_then_back h s shoe eq_refl)).
Defined.

(** X8.  A handler that runs while the pager is not mounted (a product is
    selected, so [pagerRef.current] is null) sends the pager nothing: the
    optional call is skipped, and the press animation of [handleTabPress]
    still plays. *)
Theorem no_pager_no_jump (s : State) (product : ProductWithImage) (i : nat) :
  selectedProduct s = Some product ->
  jumps (snd (handleTabPress s i)) = []
  /\ List.length (started (snd (handleTabPress s i))) = 1
  /\ handleNavigateToCart s = (s, []).
Proof.
  intros Hsel.
  unfold handleTabPress, handleNavigateToCart, pager_setPage, pagerRef_current.
  rewrite Hsel. repeat split.
Qed.

Lemma no_pager_no_jump_witness :
  let shoe := {| id := "p1"; name := "Shoe"; brand := "Acme";
                 price := 750%float; original_price := Some 1000%float;
                 rating := None; image_url := None;
                 viewers_count := 0%float |} in
  let s := {| currentPage := 0; selectedProduct := Some shoe |} in
  selectedProduct s = Some shoe
  /\ handleNavigateToCart s = (s, []).
Proof.
  intros shoe s. split; [reflexivity | ].
  exact (proj2 (proj2 (no_pager_no_jump s shoe 1 eq_refl))).
Defined.

(** X9.  The cart shortcut of the listing page, when it can be pressed,
    starts no animation, leaves the state alone and sends the pager exactly
    one jump, to the page whose key is "cart". *)
Theorem NavigateToCart_opens_cart (h : Hooks) (s s' : State)
    (cmds : list Cmd) :
  step h s NavigateToCart = Some (s', cmds) ->
  s' = s
  /\ started cmds = []
  /\ exists page, jumps cmds = [page] /\ nth_error PAGES page = Some "cart".
Proof.
  unfold step.
  destruct (deliverable (render h s) NavigateToCart) eqn:Hd; [ | discriminate].
  apply deliverable_main in Hd; [ | discriminate].
  simpl. unfold handleNavigateToCart, pager_setPage, pagerRef_current.
  rewrite Hd. intros H. injection H as <- <-.
  split; [reflexivity | split; [reflexivity | ]].
  exists 2. split; reflexivity.
Qed.

Lemma NavigateToCart_opens_cart_witness :
  let h := {| insets_bottom := 0%Q; user := None;
              useRealtimeOrders := fun _ => 0%Z |} in
  step h initialState NavigateToCart = Some (initialState, [setPage 2])
  /\ started [setPage 2] = [].
Proof.
  intros h.
  assert (H : step h initialState NavigateToCart
              = Some (initialState, [setPage 2])) by reflexivity.
  split; [exact H | ].
  exact (proj1 (proj2 (NavigateToCart_opens_cart h _ _ _ H))).
Defined.

(** X10.  A press on a tab followed by the pager's report that it settled
    on that page leaves, over both handlers together, tab [i] heading for
    1.15 and every other tab for 1, with [i] the current page: the rebound
    of the press never survives the selection animation. *)
Theorem press_then_settle (h : Hooks) (s s1 s2 : State) (i : nat)
    (cmds1 cmds2 : list Cmd) :
  step h s (TabPress i) = Some (s1, cmds1) ->
  step h s1 (PageSelected i) = Some (s2, cmds2) ->
  currentPage s2 = i
  /\ animTarget i (cmds1 ++ cmds2) = Some enlarged
  /\ (forall j, j < List.length TABS -> j <> i ->
                animTarget j (cmds1 ++ cmds2) = Some normal).
Proof.
  unfold step at 1.
  destruct (deliverable (render h s) (TabPress i)) eqn:Hd; [ | discriminate].
  apply deliverable_TabPress in Hd. destruct Hd as [Hnone Hi].
  simpl. unfold handleTabPress, pager_setPage, pagerRef_current.
  rewrite Hnone. intros H. injection H as <- <-.
  unfold step.
  destruct (deliverable (render h s) (PageSelected i)); [ | discriminate].
  simpl dispatch. intros H. injection H as <- <-.
  simpl in Hi.
  destruct (Nat.eqb (currentPage s) i);
    do 5 (destruct i as [ | i];
          [ repeat split;
            intros j Hj Hne; simpl in Hj;
            do 5 (destruct j as [ | j];
                  [first [now elim Hne | reflexivity] | ]);
            lia
          | ]);
    lia.
Qed.

Lemma press_then_settle_witness :
  let h := {| insets_bottom := 0%Q; user := None;
              useRealtimeOrders := fun _ => 0%Z |} in
  let s1 := fst (handleTabPress initialState 3) in
  step h initialState (TabPress 3)
  = Some (handleTabPress initialState 3)
  /\ step h s1 (PageSelected 3) = Some (handlePageSelected s1 3)
  /\ animTarget 3 (snd (handleTabPress initialState 3)
                   ++ snd (handlePageSelected s1 3)) = Some enlarged.
Proof.
  intros h s1.
  assert (H1 : step h initialState (TabPress 3)
               = Some (initialState, snd (handleTabPress initialState 3)))
    by reflexivity.
  assert (H2 : step h initialState (PageSelected 3)
               = Some (fst (handlePageSelected initialState 3),
                       snd (handlePageSelected initialState 3)))
    by reflexivity.
  split; [reflexivity | ]. split; [reflexivity | ].
  exact (proj1 (proj2 (press_then_settle h _ _ _ 3 _ _ H1 H2))).
Defined.

End MainTabsMore.

(** ** Runs of the tab shell *)

Section MainTabsRuns.

Import ProductService MainTabsScreenTsx.

Lemma step_page_bound (h : Hooks) (s s' : State) (e : Event)
    (cmds : list Cmd) :
  currentPage s < List.length PAGES ->
  (forall p, e = PageSelected p -> p < List.length PAGES) ->
  step h s e = Some (s', cmds) ->
  currentPage s' < List.length PAGES
  /\ Forall (fun page => page < List.length PAGES) (jumps cmds).
Proof.
  intros Hs He. unfold step.
  destruct (deliverable (render h s) e) eqn:Hd; [ | discriminate].
  intros H. injection H as H.
  destruct e as [p | i | | product | ]; simpl in H;
    injection H as <- <-; simpl.
  - split; [now apply He | ].
    unfold jumps. simpl. constructor.
  - apply deliverable_TabPress in Hd. destruct Hd as [Hnone Hi].
    split; [exact Hs | ].
    unfold pager_setPage, pagerRef_current. rewrite Hnone. simpl.
    constructor; [exact Hi | constructor].
  - split; [exact Hs | ].
    unfold pager_setPage. destruct (pagerRef_current s); simpl;
      repeat constructor.
  - split; [exact Hs | constructor].
  - split; [exact Hs | constructor].
Qed.

(** X11.  Page indices stay in range along every run: starting on one of
    the five pages, if every position the pager reports is one of its five
    pages, then after any accepted sequence of events the current page is
    still one of them, and every jump the shell asked of the pager was to
    one of them. *)
Theorem pages_stay_in_range (h : Hooks) (events : list Event)
    (s s' : State) (cmds : list Cmd) :
  currentPage s < List.length PAGES ->
  (forall p, In (PageSelected p) events -> p < List.length PAGES) ->
  steps h s events = Some (s', cmds) ->
  currentPage s' < List.length PAGES
  /\ Forall (fun page => page < List.length PAGES) (jumps cmds).
Proof.
  revert s s' cmds.
  induction events as [ | e rest IH]; intros s s' cmds Hs Hev Hrun.
  - simpl in Hrun. injection Hrun as <- <-. split; [exact Hs | constructor].
  - simpl in Hrun.
    destruct (step h s e) as [[s1 cmds1] | ] eqn:Hstep; [ | discriminate].
    destruct (steps h s1 rest) as [[s2 cmds2] | ] eqn:Hrest; [ | discriminate].
    injection Hrun as <- <-.
    destruct (step_page_bound h s s1 e cmds1 Hs) as [Hs1 Hj1];
      [ intros p ->; apply Hev; now left | exact Hstep | ].
    destruct (IH s1 s2 cmds2 Hs1) as [Hs2 Hj2];
      [ intros p Hp; apply Hev; now right | exact Hrest | ].
    split; [exact Hs2 | ].
    unfold jumps. rewrite flat_map_app. apply Forall_app. now split.
Qed.

Lemma pages_stay_in_range_witness :
  let h := {| insets_bottom := 0%Q; user := None;
              useRealtimeOrders := fun _ => 0%Z |} in
  let events := [TabPress 4; PageSelected 4; NavigateToCart; PageSelected 2] in
  steps h initialState events
  = Some ({| currentPage := 2; selectedProduct := None |},
          (snd (handleTabPress initialState 4)
           ++ snd (handlePageSelected initialState 4)
           ++ [setPage 2]
           ++ snd (handlePageSelected initialState 2))%list)
  /\ currentPage {| currentPage := 2; selectedProduct := None |}
     < List.length PAGES.
Proof.
  intros h events.
  assert (Hrun : steps h initialState events
                 = Some ({| currentPage := 2; selectedProduct := None |},
                         (snd (handleTabPress initialState 4)
                          ++ snd (handlePageSelected initialState 4)
                          ++ [setPage 2]
                          ++ snd (handlePageSelected initialState 2))%list))
    by reflexivity.
  assert (Hs : currentPage initialState < List.length PAGES)
    by (simpl; lia).
  assert (Hev : forall p, In (PageSelected p) events -> p < List.length PAGES).
  { intros p [H | [H | [H | [H | []]]]]; try discriminate H;
      injection H as <-; simpl; lia. }
  split; [exact Hrun | ].
  exact (proj1 (pages_stay_in_range h events _ _ _ Hs Hev Hrun)).
Defined.

(** X12.  Pressing the button of a tab jumps to the page at the same
    index.  For home, shop, dashboard and profile that page carries the
    key of the tab; for the freelance tab it is the cart page. *)
Theorem tab_press_target_page (h : Hooks) (s s' : State) (i : nat)
    (cmds : list Cmd) :
  step h s (TabPress i) = Some (s', cmds) ->
  exists tab page,
    nth_error TABS i = Some tab
    /\ jumps cmds = [i]
    /\ nth_error PAGES i = Some page
    /\ (page = key tab \/ (key tab = "freelance" /\ page = "cart")).
Proof.
  unfold step.
  destruct (deliverable (render h s) (TabPress i)) eqn:Hd; [ | discriminate].
  apply deliverable_TabPress in Hd. destruct Hd as [Hnone Hi].
  simpl. unfold handleTabPress, pager_setPage, pagerRef_current.
  rewrite Hnone. intros H. injection H as <- <-.
  simpl in Hi.
  do 5 (destruct i as [ | i];
        [ do 2 eexists; repeat split; simpl; auto | ]).
  lia.
Qed.

Lemma tab_press_target_page_witness :
  let h := {| insets_bottom := 0%Q; user := None;
              useRealtimeOrders := fun _ => 0%Z |} in
  step h initialState (TabPress 2)
  = Some (handleTabPress initialState 2)
  /\ exists tab page,
      nth_error TABS 2 = Some tab
      /\ jumps (snd (handleTabPress initialState 2)) = [2]
      /\ nth_error PAGES 2 = Some page
      /\ (page = key tab \/ (key tab = "freelance" /\ page = "cart")).
Proof.
  intros h.
  assert (H : step h initialState (TabPress 2)
              = Some (initialState, snd (handleTabPress initialState 2)))
    by reflexivity.
  split; [reflexivity | ].
  exact (tab_press_target_page h _ _ 2 _ H).
Defined.

(** X13.  When the tab bar is on screen its bottom padding is the larger
    of the bottom inset and 8: never less than 8, never less than the
    inset, and equal to one of the two. *)
Theorem tab_bar_padding (h : Hooks) (s : State) :
  selectedProduct s = None ->
  exists padding,
    paddingBottomOf (render h s) = Some padding
    /\ (8 <= padding)%Q
    /\ (insets_bottom h <= padding)%Q
    /\ (padding = insets_bottom h \/ padding = 8%Q).
Proof.
  intros Hnone. unfold render. rewrite Hnone. simpl.
  eexists. split; [reflexivity | ].
  unfold Js.Math_max.
  destruct (Qle_bool (insets_bottom h) 8) eqn:Hle.
  - apply Qle_bool_iff in Hle. repeat split; auto. apply Qle_refl.
  - assert (Hlt : ~ (insets_bottom h <= 8)%Q).
    { intros H. apply Qle_bool_iff in H. congruence. }
    repeat split; auto; [ | apply Qle_refl].
    apply Qnot_le_lt in Hlt. now apply Qlt_le_weak.
Qed.

Lemma tab_bar_padding_witness :
  let h := {| insets_bottom := 34%Q; user := None;
              useRealtimeOrders := fun _ => 0%Z |} in
  selectedProduct initialState = None
  /\ exists padding,
      paddingBottomOf (render h initialState) = Some padding
      /\ (8 <= padding)%Q.
Proof.
  intros h. split; [reflexivity | ].
  destruct (tab_bar_padding h initialState eq_refl)
    as (padding & Hp & H8 & _).
  exists padding. split; [exact Hp | exact H8].
Defined.

End MainTabsRuns.

(** ** More on product cards *)

Section ProductCardMore.

Import ProductService MarketplaceScreenTsx.

(** X16.  On a card whose product has a positive original price, a
    discount badge never comes alone: whenever the badge is shown, the
    original price is shown next to the price as well. *)
Theorem badge_implies_original_price (props : ProductCardProps)
    (op d : Js.double) :
  original_price (product props) = Some op ->
  Js.gt op 0%float = true ->
  discountBadge (ProductCard props) = Elem d ->
  originalPrice (ProductCard props) = Elem op.
Proof.
  intros Hop Hpos Hbadge.
  rewrite discountBadge_eq in Hbadge.
  destruct (Js.gt (discount (product props)) 0%float) eqn:Hgt;
    [ | discriminate].
  pose proof (positive_discount_lower_price _ op Hop Hpos Hgt) as Hlower.
  unfold ProductCard; cbn [originalPrice].
  rewrite Hop. cbv beta iota.
  rewrite (truthy_positive op Hpos), Hlower. reflexivity.
Qed.

Lemma badge_implies_original_price_witness :
  let shoe := {| id := "p1"; name := "Shoe"; brand := "Acme";
                 price := 750%float; original_price := Some 1000%float;
                 rating := None; image_url := None;
                 viewers_count := 0%float |} in
  originalPrice (ProductCard {| product := shoe; compact := false;
                                horizontal := true |}) = Elem 1000%float.
Proof.
  intros shoe.
  apply (badge_implies_original_price
           {| product := shoe; compact := false; horizontal := true |}
           1000%float 25%float eq_refl); reflexivity.
Defined.

(** X17.  The screen shows a spinner in both sections while loading,
    whatever the collections hold.  Once loading is over, a section shows
    one card per product, in the order of the collection, when the
    collection is not empty, and the empty-state text when it is. *)
Theorem sections_follow_state (s : State) :
  (isLoading s = true ->
   newSection (render s) = Spinner /\ saleSection (render s) = Spinner)
  /\ (isLoading s = false ->
      (newProducts s = [] ->
       newSection (render s) = EmptyState "No products available")
      /\ (saleProducts s = [] ->
          saleSection (render s) = EmptyState "No products available")
      /\ (newProducts s <> [] ->
          exists cards, newSection (render s) = Cards cards
                        /\ map productName cards = map name (newProducts s)
                        /\ Forall (fun c => cardStyle c = "productCardHorizontal")
                                  cards)
      /\ (saleProducts s <> [] ->
          exists cards, saleSection (render s) = Cards cards
                        /\ map productName cards = map name (saleProducts s)
                        /\ Forall (fun c => cardStyle c = "productCard")
                                  cards)).
Proof.
  unfold render, section; simpl. split.
  - intros ->. split; reflexivity.
  - intros ->. repeat split.
    + intros ->. reflexivity.
    + intros ->. reflexivity.
    + intros Hne. destruct (newProducts s) as [ | x l]; [now elim Hne | ].
      eexists. split; [reflexivity | ]. split.
      * rewrite map_map. reflexivity.
      * apply Forall_map. apply Forall_forall. intros; reflexivity.
    + intros Hne. destruct (saleProducts s) as [ | x l]; [now elim Hne | ].
      eexists. split; [reflexivity | ]. split.
      * rewrite map_map. reflexivity.
      * apply Forall_map. apply Forall_forall. intros; reflexivity.
Qed.

Lemma sections_follow_state_witness :
  newSection (render initialState) = Spinner
  /\ saleSection (render initialState) = Spinner.
Proof.
  exact (proj1 (sections_follow_state initialState) eq_refl).
Defined.

End ProductCardMore.

(** ** More on load cycles *)

Section LoadCycleMore.

Import ProductService MarketplaceScreenTsx.

#[local] Arguments Js.slice0 : simpl never.

Ltac unfold_load :=
  cbv [traceOf stateAfter outcomeOf run cycle onRefresh loadData
       tryCatchFinally bind request await awaitAllProducts emit setState
       ret].

Ltac use_answers :=
  repeat (cbn;
          match goal with
          | H : fetchNewProducts _ _ = _ |- _ => rewrite H
          | H : fetchFournisseurProducts _ _ = _ |- _ => rewrite H
          | H : fetchProductCategories _ = _ |- _ => rewrite H
          | H : fetchAllProducts _ _ = _ |- _ => rewrite H
          | H : invalidateProductCaches _ = _ |- _ => rewrite H
          end);
  cbn.

Ltac all_answers b :=
  destruct (fetchNewProducts b 10) as [[ | ? ?] | ?] eqn:?;
  destruct (fetchFournisseurProducts b 20) as [[ | ? ?] | ?] eqn:?;
  destruct (fetchProductCategories b) as [? | ?] eqn:?;
  destruct (fetchAllProducts b 0) as [? | ?] eqn:?;
  destruct (fetchAllProducts b 1) as [? | ?] eqn:?.

(** X18.  When the new-items and supplier requests both resolve to
    non-empty lists and the categories resolve, [loadData] sends only the
    three concurrent requests (no catalogue request), logs nothing, and the
    state becomes exactly the three answers with the loading flag cleared. *)
Theorem load_without_fallback b s newProds fournisseurProds cats :
  fetchNewProducts b 10 = Resolved newProds ->
  fetchFournisseurProducts b 20 = Resolved fournisseurProds ->
  fetchProductCategories b = Resolved cats ->
  newProds <> [] -> fournisseurProds <> [] ->
  stateAfter (loadData b) s
  = {| isLoading := false; refreshing := refreshing s;
       newProducts := newProds; saleProducts := fournisseurProds;
       categories := cats |}
  /\ requests (traceOf (loadData b) s)
     = [FetchNewProducts 10; FetchFournisseurProducts 20;
        FetchProductCategories]
  /\ errorLines (traceOf (loadData b) s) = [].
Proof.
  intros Hn Hf Hc Hne Hfe.
  destruct newProds as [ | n nl]; [now elim Hne | ].
  destruct fournisseurProds as [ | f fl]; [now elim Hfe | ].
  unfold_load. use_answers. repeat split.
Qed.

Lemma load_without_fallback_witness :
  let item n := {| id := String (Ascii.ascii_of_nat (65 + n)) "";
                   name := "Item"; brand := "Acme"; price := 100%float;
                   original_price := None; rating := None;
                   image_url := None; viewers_count := 0%float |} in
  let b := {| fetchNewProducts := fun _ => Resolved [item 0; item 1];
              fetchFournisseurProducts := fun _ => Resolved [item 2];
              fetchProductCategories := Resolved ["tools"];
              fetchAllProducts := fun _ => Rejected "unused";
              invalidateProductCaches := Resolved tt |} in
  stateAfter (loadData b) initialState
  = {| isLoading := false; refreshing := false;
       newProducts := [item 0; item 1]; saleProducts := [item 2];
       categories := ["tools"] |}.
Proof.
  intros item b.
  refine (proj1 (load_without_fallback b initialState [item 0; item 1]
                   [item 2] ["tools"] eq_refl eq_refl eq_refl _ _));
    discriminate.
Defined.

(** X19.  The supplier section has the same fallback as the new section:
    when the supplier request resolves to an empty list (and the new-items
    request to a non-empty one), one catalogue request is sent and the sale
    collection becomes the first ten catalogue items, never more than ten;
    the new items and the categories are the answers received. *)
Theorem sale_fallback b s newProds cats catalogue :
  fetchNewProducts b 10 = Resolved newProds ->
  fetchFournisseurProducts b 20 = Resolved [] ->
  fetchProductCategories b = Resolved cats ->
  newProds <> [] ->
  fetchAllProducts b 0 = Resolved catalogue ->
  stateAfter (loadData b) s
  = {| isLoading := false; refreshing := refreshing s;
       newProducts := newProds; saleProducts := firstn 10 catalogue;
       categories := cats |}
  /\ requests (traceOf (loadData b) s)
     = [FetchNewProducts 10; FetchFournisseurProducts 20;
        FetchProductCategories; FetchAllProducts]
  /\ List.length (saleProducts (stateAfter (loadData b) s)) <= 10.
Proof.
  intros Hn Hf Hc Hne Ha.
  destruct newProds as [ | n nl]; [now elim Hne | ].
  assert (Hstate : stateAfter (loadData b) s
                   = {| isLoading := false; refreshing := refreshing s;
                        newProducts := n :: nl;
                        saleProducts := firstn 10 catalogue;
                        categories := cats |}).
  { unfold_load. use_answers. reflexivity. }
  split; [exact Hstate | split].
  - unfold_load. use_answers. reflexivity.
  - rewrite Hstate. cbn [saleProducts]. apply firstn_le_length.
Qed.

Lemma sale_fallback_witness :
  let item n := {| id := String (Ascii.ascii_of_nat (65 + n)) "";
                   name := "Item"; brand := "Acme"; price := 100%float;
                   original_price := None; rating := None;
                   image_url := None; viewers_count := 0%float |} in
  let b := {| fetchNewProducts := fun _ => Resolved [item 0];
              fetchFournisseurProducts := fun _ => Resolved [];
              fetchProductCategories := Resolved ["tools"];
              fetchAllProducts := fun _ => Resolved (map item (seq 0 12));
              invalidateProductCaches := Resolved tt |} in
  saleProducts (stateAfter (loadData b) initialState) = map item (seq 0 10).
Proof.
  intros item b.
  assert (Hne : [item 0] <> []) by discriminate.
  rewrite (proj1 (sale_fallback b initialState [item 0] ["tools"]
                    (map item (seq 0 12)) eq_refl eq_refl eq_refl Hne
                    eq_refl)).
  reflexivity.
Defined.

(** X20.  When both the new-items and the supplier requests resolve to
    empty lists, the catalogue is requested twice, one request after the
    other; the new section takes the first ten items of the first answer
    and the sale section the first ten of the second answer. *)
Theorem double_fallback b s cats first second :
  fetchNewProducts b 10 = Resolved [] ->
  fetchFournisseurProducts b 20 = Resolved [] ->
  fetchProductCategories b = Resolved cats ->
  fetchAllProducts b 0 = Resolved first ->
  fetchAllProducts b 1 = Resolved second ->
  stateAfter (loadData b) s
  = {| isLoading := false; refreshing := refreshing s;
       newProducts := firstn 10 first; saleProducts := firstn 10 second;
       categories := cats |}
  /\ requests (traceOf (loadData b) s)
     = [FetchNewProducts 10; FetchFournisseurProducts 20;
        FetchProductCategories; FetchAllProducts; FetchAllProducts].
Proof.
  intros Hn Hf Hc H0 H1. unfold_load. use_answers. split; reflexivity.
Qed.

Lemma double_fallback_witness :
  let item n := {| id := String (Ascii.ascii_of_nat (65 + n)) "";
                   name := "Item"; brand := "Acme"; price := 100%float;
                   original_price := None; rating := None;
                   image_url := None; viewers_count := 0%float |} in
  let b := {| fetchNewProducts := fun _ => Resolved [];
              fetchFournisseurProducts := fun _ => Resolved [];
              fetchProductCategories := Resolved ["tools"];
              fetchAllProducts :=
                fun k => Resolved (if Nat.eqb k 0 then [item 0] else [item 1]);
              invalidateProductCaches := Resolved tt |} in
  stateAfter (loadData b) initialState
  = {| isLoading := false; refreshing := false;
       newProducts := [item 0]; saleProducts := [item 1];
       categories := ["tools"] |}.
Proof.
  intros item b.
  exact (proj1 (double_fallback b initialState ["tools"] [item 0] [item 1]
                  eq_refl eq_refl eq_refl eq_refl eq_refl)).
Defined.

(** X21.  The categories are set last: when the three concurrent requests
    resolve but a catalogue request of a fallback is rejected, the
    categories that were received are dropped and the sale collection is
    left as it was; the rejection is logged and the loading flag cleared. *)
Theorem rejected_catalogue_drops_categories b s newProds fournisseurProds
    cats :
  fetchNewProducts b 10 = Resolved newProds ->
  fetchFournisseurProducts b 20 = Resolved fournisseurProds ->
  fetchProductCategories b = Resolved cats ->
  In FetchAllProducts (rejectedFetches (traceOf (loadData b) s)) ->
  categories (stateAfter (loadData b) s) = categories s
  /\ saleProducts (stateAfter (loadData b) s) = saleProducts s
  /\ isLoading (stateAfter (loadData b) s) = false
  /\ List.length (errorLines (traceOf (loadData b) s)) = 1.
Proof.
  intros Hn Hf Hc.
  destruct newProds as [ | n nl]; destruct fournisseurProds as [ | f fl];
    destruct (fetchAllProducts b 0) as [? | ?] eqn:?;
    destruct (fetchAllProducts b 1) as [? | ?] eqn:?;
    unfold_load; use_answers; intros Hin;
    try (repeat split; fail);
    exfalso; simpl in Hin;
    repeat (destruct Hin as [Hin | Hin]; [discriminate Hin | ]);
    exact Hin.
Qed.

Lemma rejected_catalogue_drops_categories_witness :
  let item n := {| id := String (Ascii.ascii_of_nat (65 + n)) "";
                   name := "Item"; brand := "Acme"; price := 100%float;
                   original_price := None; rating := None;
                   image_url := None; viewers_count := 0%float |} in
  let b := {| fetchNewProducts := fun _ => Resolved [item 0];
              fetchFournisseurProducts := fun _ => Resolved [];
              fetchProductCategories := Resolved ["tools"];
              fetchAllProducts := fun _ => Rejected "offline";
              invalidateProductCaches := Resolved tt |} in
  In FetchAllProducts (rejectedFetches (traceOf (loadData b) initialState))
  /\ categories (stateAfter (loadData b) initialState) = [].
Proof.
  intros item b.
  assert (Hin : In FetchAllProducts
                   (rejectedFetches (traceOf (loadData b) initialState)))
    by (simpl; tauto).
  split; [exact Hin | ].
  exact (proj1 (rejected_catalogue_drops_categories b initialState [item 0]
                  [] ["tools"] eq_refl eq_refl eq_refl Hin)).
Defined.

(** X22.  Every run of [loadData] sends between three and five requests,
    ends with the clearing of the loading flag, which it does once, and
    writes an error line exactly when one of its fetches was rejected, and
    then only one. *)
Theorem loadData_trace_shape b s :
  let tr := traceOf (loadData b) s in
  (exists before,
      tr = (before ++ [Set_ (SetIsLoading false)])%list
      /\ forall flag, ~ In (Set_ (SetIsLoading flag)) before)
  /\ 3 <= List.length (requests tr) <= 5
  /\ List.length (errorLines tr) <= 1
  /\ (errorLines tr = [] <-> rejectedFetches tr = []).
Proof.
  all_answers b; unfold_load; use_answers;
    (split;
     [ match goal with
       | |- exists before, ?tr = _ /\ _ => exists (removelast tr)
       end;
       split; [reflexivity | ];
       intros flag Hin; simpl in Hin;
       repeat (destruct Hin as [Hin | Hin]; [discriminate Hin | ]);
       exact Hin
     | split; [simpl; lia | ];
       split; [simpl; lia | ];
       split; intros H; first [reflexivity | discriminate H] ]).
Qed.

(** X23.  Loading is idempotent on the state: against the same answers, a
    second run of [loadData] leaves the state the first run produced. *)
Theorem loadData_idempotent b s :
  stateAfter (loadData b) (stateAfter (loadData b) s)
  = stateAfter (loadData b) s.
Proof.
  all_answers b; unfold_load; use_answers; reflexivity.
Qed.

(** X24.  When the cache invalidation is rejected, the refresh promise is
    rejected with the same error: no fetch is sent, the collections and the
    loading flag are untouched and the refreshing flag is left raised. *)
Theorem refresh_fails_with_invalidation b s error :
  invalidateProductCaches b = Rejected error ->
  outcomeOf (onRefresh b) s = Rejected error
  /\ stateAfter (onRefresh b) s = update (SetRefreshing true) s
  /\ requests (traceOf (onRefresh b) s) = [InvalidateProductCaches].
Proof.
  intros Hinv. unfold outcomeOf, stateAfter, traceOf.
  rewrite onRefresh_run, Hinv. repeat split.
Qed.

Lemma refresh_fails_with_invalidation_witness :
  let b := {| fetchNewProducts := fun _ => Resolved [];
              fetchFournisseurProducts := fun _ => Resolved [];
              fetchProductCategories := Resolved ["tools"];
              fetchAllProducts := fun _ => Resolved [];
              invalidateProductCaches := Rejected "offline" |} in
  outcomeOf (onRefresh b) initialState = Rejected "offline"
  /\ refreshing (stateAfter (onRefresh b) initialState) = true.
Proof.
  intros b.
  destruct (refresh_fails_with_invalidation b initialState "offline" eq_refl)
    as (Hout & Hstate & _).
  split; [exact Hout | ]. rewrite Hstate. reflexivity.
Defined.

Lemma loadData_ignores_refreshing b s flag :
  stateAfter (loadData b) (update (SetRefreshing flag) s)
  = update (SetRefreshing flag) (stateAfter (loadData b) s).
Proof.
  all_answers b; unfold_load; use_answers; reflexivity.
Qed.

(** X25.  When the cache invalidation resolves, a refresh resolves too and
    ends in the state a plain load against the same answers would give,
    with the refreshing flag lowered. *)
Theorem refresh_agrees_with_load b s u :
  invalidateProductCaches b = Resolved u ->
  outcomeOf (onRefresh b) s = Resolved tt
  /\ stateAfter (onRefresh b) s
     = update (SetRefreshing false) (stateAfter (loadData b) s).
Proof.
  intros Hinv. unfold outcomeOf at 1, stateAfter at 1.
  rewrite onRefresh_run, Hinv. cbn [fst snd state].
  split; [reflexivity | ].
  rewrite loadData_ignores_refreshing.
  destruct (stateAfter (loadData b) s). reflexivity.
Qed.

Lemma refresh_agrees_with_load_witness :
  let item n := {| id := String (Ascii.ascii_of_nat (65 + n)) "";
                   name := "Item"; brand := "Acme"; price := 100%float;
                   original_price := None; rating := None;
                   image_url := None; viewers_count := 0%float |} in
  let b := {| fetchNewProducts := fun _ => Resolved [item 0];
              fetchFournisseurProducts := fun _ => Resolved [item 1];
              fetchProductCategories := Resolved ["tools"];
              fetchAllProducts := fun _ => Resolved [];
              invalidateProductCaches := Resolved tt |} in
  stateAfter (onRefresh b) initialState
  = {| isLoading := false; refreshing := false;
       newProducts := [item 0]; saleProducts := [item 1];
       categories := ["tools"] |}.
Proof.
  intros item b.
  rewrite (proj2 (refresh_agrees_with_load b initialState tt eq_refl)).
  reflexivity.
Defined.

End LoadCycleMore.

(** ** The listing page inside the shell *)

Section HomePageFacts.

Import ProductService.

(** X26.  A press on the card of a product, on the listing page as the
    shell mounts it, reaches the shell as the selection of that very
    product: the shell then shows the detail screen of that product, keeps
    its current page and sends nothing to the pager or the animations.  A
    card without a callback does nothing. *)
Theorem card_press_opens_detail (h : MainTabsScreenTsx.Hooks)
    (s : MainTabsScreenTsx.State) (product : ProductWithImage) :
  MainTabsScreenTsx.selectedProduct s = None ->
  exists e s',
    MarketplaceScreenTsx.cardPress HomePage.props product = Some e
    /\ MainTabsScreenTsx.step h s e = Some (s', [])
    /\ MainTabsScreenTsx.render h s'
       = MainTabsScreenTsx.ProductDetailScreen product
    /\ MainTabsScreenTsx.currentPage s' = MainTabsScreenTsx.currentPage s
    /\ MarketplaceScreenTsx.handlePress
         (@None (ProductWithImage -> MainTabsScreenTsx.Event)) product = None.
Proof.
  intros Hnone. destruct s as [page sel]. simpl in Hnone. subst sel.
  do 2 eexists. repeat split.
Qed.

Lemma card_press_opens_detail_witness :
  let shoe := {| id := "p1"; name := "Shoe"; brand := "Acme";
                 price := 750%float; original_price := Some 1000%float;
                 rating := None; image_url := None;
                 viewers_count := 0%float |} in
  let h := {| MainTabsScreenTsx.insets_bottom := 0%Q;
              MainTabsScreenTsx.user := None;
              MainTabsScreenTsx.useRealtimeOrders := fun _ => 0%Z |} in
  exists e s',
    MarketplaceScreenTsx.cardPress HomePage.props shoe = Some e
    /\ MainTabsScreenTsx.step h MainTabsScreenTsx.initialState e
       = Some (s', [])
    /\ MainTabsScreenTsx.render h s'
       = MainTabsScreenTsx.ProductDetailScreen shoe.
Proof.
  intros shoe h.
  destruct (card_press_opens_detail h MainTabsScreenTsx.initialState shoe
              eq_refl) as (e & s' & He & Hstep & Hview & _).
  exists e, s'. repeat split; assumption.
Defined.

End HomePageFacts.
